(** * Legal-move indicator meshes and the sweep of unverified accounts
      (infinitechess.org)

    A shallow embedding of
    [src/client/scripts/esm/game/rendering/legalmoveshapes.js], with the
    properties of its two generators, [getDataLegalMoveDot] and
    [getDataLegalMoveCornerTris], and of
    [src/server/database/deleteUnverifiedMembers.js], with the properties of
    [removeOldUnverifiedMembers] and [startPeriodicDeleteUnverifiedMembers]
    (module [Server]).

    Number model.  A JavaScript number is embedded twice.  In the first
    embedding it is an exact rational ([Q]): the arithmetic of the module
    is [+], [-], [*], [/] and [Math.ceil], all of which [Q] has, and every
    literal of the source ([0.16], [0.2], [0.5], [0.50], [28], ...) is a
    rational; the value of [Math.ceil] is an integer, and so is everything
    the source stores in [resolution], which is kept in [Z].  This
    embedding carries the properties that say which operations the code
    performs and in what order, and those that rounding leaves intact.  In
    the second embedding (module [Double]) a number is an IEEE-754 double,
    with rounding, NaN and the infinities; it carries the properties that
    depend on the values the sums take.

    Collaborators.  The module imports [board.js] and [shapes.js], which
    are not among the sources at hand.  The only thing used of the board is
    the getter [board.gsquareCenter()]; it is embedded as an event of a
    free monad, answered by whoever runs the program.  The only thing used
    of [shapes] is [shapes.getDataCircle], which is a parameter of the
    development. *)

From Stdlib Require Import QArith Qround ZArith List Lia Lqa Bool.
From Stdlib Require String Ascii.
From Stdlib Require Floats Uint63.
Import ListNotations.
Import String.StringSyntax.

Local Open Scope Q_scope.

(** ** Data *)

(** A JavaScript number. *)
Definition number : Type := Q.
Bind Scope Q_scope with number.

(** [coords]: the tile coordinates [[coordX, coordY]]. *)
Definition Coords : Type := (number * number)%type.

(** [color]: the array [[r, g, b, a]]. *)
Definition Color : Type := (number * number * number * number)%type.

(** The flat vertex data a generator returns: six numbers per vertex
    ([x, y, r, g, b, a]), three vertices per triangle. *)
Definition VertexData : Type := list number.

(** ** The board collaborator *)

Module Board.

(** Modelled from the spec: [board.gsquareCenter()] of the absent
    [board.js], "current sub-tile alignment value from the board state
    provider; read-only".  A program is a tree of calls of the getter:
    [GSquareCenter k] calls it and continues with [k] on the answer. *)
Inductive Eff (A : Type) : Type :=
| Ret (a : A)
| GSquareCenter (k : number -> Eff A).

Arguments Ret {A} a.
Arguments GSquareCenter {A} k.

Fixpoint bind {A B : Type} (m : Eff A) (f : A -> Eff B) : Eff B :=
  match m with
  | Ret a => f a
  | GSquareCenter k => GSquareCenter (fun o => bind (k o) f)
  end.

(** One call of [board.gsquareCenter()]. *)
Definition gsquareCenter : Eff number := GSquareCenter Ret.

(** [exec p answers n] runs [p] against a board whose [i]-th reading
    (counted from 0) is [answers i], starting at reading number [n]; it
    returns the value of [p] and the number of the next reading.  The
    board may thus answer differently from one reading to the next. *)
Fixpoint exec {A : Type} (p : Eff A) (answers : nat -> number) (n : nat)
  : A * nat :=
  match p with
  | Ret a => (a, n)
  | GSquareCenter k => exec (k (answers n)) answers (S n)
  end.

(** The value of [p] on such a board. *)
Definition result {A : Type} (p : Eff A) (answers : nat -> number) : A :=
  fst (exec p answers 0%nat).

(** How many times [p] calls the getter on such a board. *)
Definition reads {A : Type} (p : Eff A) (answers : nat -> number) : nat :=
  snd (exec p answers 0%nat).

(** The value of [p] when the board offset is [o] throughout the call. *)
Definition run {A : Type} (o : number) (p : Eff A) : A :=
  result p (fun _ => o).

End Board.

Import Board.

Notation "x <- m ;; k" := (bind m (fun x => k))
  (at level 61, m at next level, right associativity).

(** ** Decoding vertex data *)

Record Vertex : Type := mkVertex {
  vx : number; vy : number;
  vr : number; vg : number; vb : number; va : number
}.

Definition vcolor (v : Vertex) : Color := (vr v, vg v, vb v, va v).

Record Triangle : Type := mkTriangle {
  v1 : Vertex; v2 : Vertex; v3 : Vertex
}.

(** The vertices of a buffer, six numbers each; numbers left over at the
    end (fewer than six) belong to no vertex. *)
Fixpoint vertices_of (data : VertexData) : list Vertex :=
  match data with
  | x :: y :: r :: g :: b :: a :: rest =>
      mkVertex x y r g b a :: vertices_of rest
  | _ => []
  end.

Fixpoint group3 (vs : list Vertex) : list Triangle :=
  match vs with
  | p :: q :: s :: rest => mkTriangle p q s :: group3 rest
  | _ => []
  end.

(** The triangles of a buffer, three vertices each. *)
Definition triangles_of (data : VertexData) : list Triangle :=
  group3 (vertices_of data).

(** Twice the signed area of a triangle: negative when its vertices run
    clockwise (y pointing up), positive when they run counter-clockwise. *)
Definition signedArea2 (t : Triangle) : number :=
  (vx (v2 t) - vx (v1 t)) * (vy (v3 t) - vy (v1 t))
  - (vx (v3 t) - vx (v1 t)) * (vy (v2 t) - vy (v1 t)).

(** ** legalmoveshapes.js *)

(** Constants of [getDataLegalMoveDot]. *)
Definition radius : number := 0.16.
Definition resolutionMultiplier : number := 28.
Definition resolutionCap : Z := 32.
Definition resolutionMin : Z := 5.

(** [opacityOffset], declared with the same value in both generators. *)
Definition opacityOffset : number := 0.2.

(** [triSize] of [getDataLegalMoveCornerTris]. *)
Definition triSize : number := 0.50.

(** The value of the local [resolution] of [getDataLegalMoveDot] when the
    circle is requested: the conditional initialisation followed by the two
    [if] statements. *)
Definition resolution (scale : number) (perspectiveOn : bool) : Z :=
  let resolution :=
    if perspectiveOn then resolutionCap
    else Qceiling (resolutionMultiplier * scale) in
  let resolution :=
    if (resolution >? resolutionCap)%Z then resolutionCap else resolution in
  let resolution :=
    if (resolution <? resolutionMin)%Z then resolutionMin else resolution in
  resolution.

(** The helper [addTriangle] nested in [getDataCornerTriangles]: it pushes
    three vertices onto the array [vertices] it closes over, with the
    colour [r, g, b, a] it closes over. *)
Definition addTriangle (r g b a : number) (vertices : VertexData)
    (x1 y1 x2 y2 x3 y3 : number) : VertexData :=
  vertices ++ [x1; y1; r; g; b; a;
               x2; y2; r; g; b; a;
               x3; y3; r; g; b; a].

Definition getDataCornerTriangles (centerX centerY triSize : number)
    (color : Color) : VertexData :=
  let vertices := [] in
  let halfSize := 1 / 2 in
  let '(r, g, b, a) := color in
  let addTriangle := addTriangle r g b a in
  (* the corner positions *)
  let topLeft := (centerX - halfSize, centerY + halfSize) in
  let topRight := (centerX + halfSize, centerY + halfSize) in
  let bottomLeft := (centerX - halfSize, centerY - halfSize) in
  let bottomRight := (centerX + halfSize, centerY - halfSize) in
  let cornerOffset := triSize / 2 in
  (* top-left triangle *)
  let vertices := addTriangle vertices
    (fst topLeft) (snd topLeft)
    (fst topLeft + cornerOffset) (snd topLeft)
    (fst topLeft) (snd topLeft - cornerOffset) in
  (* top-right triangle *)
  let vertices := addTriangle vertices
    (fst topRight) (snd topRight)
    (fst topRight - cornerOffset) (snd topRight)
    (fst topRight) (snd topRight - cornerOffset) in
  (* bottom-left triangle *)
  let vertices := addTriangle vertices
    (fst bottomLeft) (snd bottomLeft)
    (fst bottomLeft + cornerOffset) (snd bottomLeft)
    (fst bottomLeft) (snd bottomLeft + cornerOffset) in
  (* bottom-right triangle *)
  let vertices := addTriangle vertices
    (fst bottomRight) (snd bottomRight)
    (fst bottomRight - cornerOffset) (snd bottomRight)
    (fst bottomRight) (snd bottomRight + cornerOffset) in
  vertices.

Definition getDataLegalMoveCornerTris (coords : Coords) (color : Color)
  : Eff VertexData :=
  let '(r, g, b, a) := color in
  let a := a + opacityOffset in
  o <- gsquareCenter ;;
  let x := fst coords + (1 - o) - 0.5 in
  o' <- gsquareCenter ;;
  let y := snd coords + (1 - o') - 0.5 in
  Ret (getDataCornerTriangles x y triSize (r, g, b, a)).

(** The type of [shapes.getDataCircle(x, y, radius, resolution, r, g, b,
    a)]. *)
Definition CirclePrimitive : Type :=
  number -> number -> number -> Z ->
  number -> number -> number -> number -> VertexData.

Section Dot.

(** [shapes.getDataCircle] of the absent [shapes.js]. *)
Variable getDataCircle : CirclePrimitive.

Definition getDataLegalMoveDot (coords : Coords) (color : Color)
    (scale : number) (perspectiveOn : bool) : Eff VertexData :=
  let resolution := resolution scale perspectiveOn in
  let '(r, g, b, a) := color in
  let a := a + opacityOffset in
  o <- gsquareCenter ;;
  let x := fst coords + (1 - o) - 0.5 in
  o' <- gsquareCenter ;;
  let y := snd coords + (1 - o') - 0.5 in
  Ret (getDataCircle x y radius resolution r g b a).

End Dot.

(** ** A circle primitive to instantiate the parameter with *)

(** Modelled from the spec: a rim point of the disc of
    [shapes.getDataCircle].  It is a rational point of the unit circle for
    the slice boundary [i] of [resolution]: the quarter turn the boundary
    falls in, and inside it the parametrisation
    [((1 - f * f) / (1 + f * f), 2 * f / (1 + f * f))]. *)
Definition rimPoint (resolution i : Z) : number * number :=
  let quadrant := (4 * i / resolution)%Z in
  let f := inject_Z (4 * i - quadrant * resolution) / inject_Z resolution in
  let c := (1 - f * f) / (1 + f * f) in
  let s := (2 * f) / (1 + f * f) in
  match (quadrant mod 4)%Z with
  | 0%Z => (c, s)
  | 1%Z => (- s, c)
  | 2%Z => (- c, - s)
  | _ => (s, - c)
  end.

(** Modelled from the spec: the loop of [shapes.getDataCircle], emitting
    the slices [i], [i + 1], ..., [i + n - 1] of the fan, each the centre
    and two consecutive rim points. *)
Fixpoint fanSlices (x y radius : number) (resolution : Z)
    (r g b a : number) (n : nat) (i : Z) : VertexData :=
  match n with
  | O => []
  | S n' =>
      let p := rimPoint resolution i in
      let q := rimPoint resolution (i + 1) in
      [x; y; r; g; b; a;
       x + radius * fst p; y + radius * snd p; r; g; b; a;
       x + radius * fst q; y + radius * snd q; r; g; b; a]
      ++ fanSlices x y radius resolution r g b a n' (i + 1)
  end.

(** Modelled from the spec: [shapes.getDataCircle] of the absent
    [shapes.js], the "generic disc triangulator; assumed to emit
    [resolution] triangles in a fan", an "opaque primitive satisfying
    resolution triangles, correct color per vertex".  [fanCircle] is one
    triangulator of that kind, over rational rim points; the properties of
    the dot generator are stated for every primitive that meets the
    contract, and [fanCircle] shows that the contract can be met. *)
Definition fanCircle (x y radius : number) (resolution : Z)
    (r g b a : number) : VertexData :=
  fanSlices x y radius resolution r g b a (Z.to_nat resolution) 0.

(** ** The contract of the circle primitive *)

(** Modelled from the spec: "resolution triangles".  The primitive emits
    exactly [resolution] triangles, of three vertices of six numbers
    each. *)
Definition emits_resolution_triangles (getDataCircle : CirclePrimitive)
  : Prop :=
  forall (x y radius : number) (resolution : Z) (r g b a : number),
    (0 <= resolution)%Z ->
    length (triangles_of (getDataCircle x y radius resolution r g b a))
    = Z.to_nat resolution
    /\ Z.of_nat (length (getDataCircle x y radius resolution r g b a))
       = (resolution * 18)%Z.

(** Modelled from the spec: "correct color per vertex".  Every vertex the
    primitive emits carries the colour it was given. *)
Definition colors_every_vertex (getDataCircle : CirclePrimitive) : Prop :=
  forall (x y radius : number) (resolution : Z) (r g b a : number),
    Forall (fun v => vcolor v = (r, g, b, a))
      (vertices_of (getDataCircle x y radius resolution r g b a)).

(** ** The shape of a corner marker *)

(** [corner_triangle cx cy sx sy t]: [t] is the marker of the corner of the
    unit tile centred at [(cx, cy)] that lies in direction [(sx, sy)]
    ([sx] is [-1] for left and [1] for right, [sy] is [1] for top and [-1]
    for bottom).  Its first vertex is the corner, its second vertex is
    the corner moved horizontally by [0.25] toward the centre, its third
    vertex the corner moved vertically by [0.25] toward the centre. *)
Definition corner_triangle (cx cy sx sy : number) (t : Triangle) : Prop :=
  (vx (v1 t) == cx + sx * 0.5 /\ vy (v1 t) == cy + sy * 0.5)
  /\ (vx (v2 t) == vx (v1 t) - sx * 0.25 /\ vy (v2 t) == vy (v1 t))
  /\ (vx (v3 t) == vx (v1 t) /\ vy (v3 t) == vy (v1 t) - sy * 0.25).

(** * deleteUnverifiedMembers.js

    A shallow embedding of [src/server/database/deleteUnverifiedMembers.js].
    Everything the module imports is absent from the sources at hand: the
    calls that act on the server ([console.log], [Date.now], [db.all],
    [deleteUser], [closeAllSocketsOfMember], [logEvents], [setInterval]) are
    events of a free monad, each of which the world answers by returning or
    by throwing; [JSON.parse], [timeutil.sqliteToTimestamp], the conversion
    of a number to a string in a template literal and the two constants of
    [config.js] are parameters.  Calls are synchronous, as the source
    writes them (none is awaited).  Timestamps are integers ([Z]), in
    milliseconds. *)

Module Server.

Definition string : Type := String.string.

(** A thrown value, of which the module reads [error.stack]. *)
Record Error : Type := mkError { stack : string }.

(** How a call ends: it returns a value or throws. *)
Inductive Outcome (A : Type) : Type :=
| Returned (a : A)
| Threw (e : Error).

Arguments Returned {A} a.
Arguments Threw {A} e.

(** A row of the query: the columns [user_id], [username], [joined] (the
    SQLite timestamp text) and [verification] (a JSON text). *)
Record MemberRow : Type := mkMemberRow {
  user_id : Z;
  username : string;
  joined : string;
  verification : string
}.

(** The values [JSON.parse] returns. *)
#[warnings="-register-all"]
Inductive JSON : Type :=
| JNull
| JBool (b : bool)
| JNumber (n : number)
| JString (s : string)
| JArray (items : list JSON)
| JObject (properties : list (string * JSON)).

(** The own property [key] of an object, [None] standing for
    [undefined]; an object lists each of its keys once, as [JSON.parse]
    leaves it. *)
Fixpoint property (key : string) (properties : list (string * JSON))
  : option JSON :=
  match properties with
  | [] => None
  | (k, v) :: rest =>
      if String.eqb k key then Some v else property key rest
  end.

(** [ToBoolean] of JavaScript, on a JSON value or [undefined]. *)
Definition truthy (v : option JSON) : bool :=
  match v with
  | None => false
  | Some JNull => false
  | Some (JBool b) => b
  | Some (JNumber n) => negb (Qeq_bool n 0)
  | Some (JString s) => negb (String.eqb s String.EmptyString)
  | Some (JArray _) => true
  | Some (JObject _) => true
  end.

(** The function handed to [setInterval]. *)
Inductive Callback : Type :=
| removeOldUnverifiedMembers_callback.

(** The calls on the server. *)
Inductive Call : Type :=
| console_log (message : string)
| Date_now
| db_all (query : string)
| deleteUser (user_id : Z) (reason_deleted : string)
| closeAllSocketsOfMember (user_id : Z) (closureCode : Z)
    (closureReason : string)
| logEvents (message : string) (fileName : string) (print : bool)
| setInterval (callback : Callback) (delay : Z).

(** What a call returns, when it returns. *)
Definition Answer (c : Call) : Type :=
  match c with
  | Date_now => Z
  | db_all _ => list MemberRow
  | _ => unit
  end.

(** Programs: a result, an exception on its way up, or a call with what
    follows on either outcome. *)
Inductive Eff (A : Type) : Type :=
| Ret (a : A)
| Throw (e : Error)
| Vis (c : Call) (k : Outcome (Answer c) -> Eff A).

Arguments Ret {A} a.
Arguments Throw {A} e.
Arguments Vis {A} c k.

Fixpoint bind {A B : Type} (m : Eff A) (f : A -> Eff B) : Eff B :=
  match m with
  | Ret a => f a
  | Throw e => Throw e
  | Vis c k => Vis c (fun o => bind (k o) f)
  end.

(** A call whose exception is not handled on the spot. *)
Definition call (c : Call) : Eff (Answer c) :=
  Vis c (fun o => match o with
                  | Returned x => Ret x
                  | Threw e => Throw e
                  end).

(** A function of the language or of a library, which returns or throws. *)
Definition lift {A : Type} (o : Outcome A) : Eff A :=
  match o with
  | Returned x => Ret x
  | Threw e => Throw e
  end.

(** [try { body } catch (error) { handler }]. *)
Fixpoint try_catch {A : Type} (body : Eff A) (handler : Error -> Eff A)
  : Eff A :=
  match body with
  | Ret a => Ret a
  | Throw e => handler e
  | Vis c k => Vis c (fun o => try_catch (k o) handler)
  end.

(** [for (const item of items) { body }]; [continue] is the end of the
    body. *)
Fixpoint forOf {A : Type} (items : list A) (body : A -> Eff unit)
  : Eff unit :=
  match items with
  | [] => Ret tt
  | item :: rest => bind (body item) (fun _ => forOf rest body)
  end.

(** The world a program runs in: the clock, the rows the query returns,
    and which calls throw ([failure n c = Some e]: the call number [n] of
    the run, being [c], throws [e]). *)
Record World : Type := mkWorld {
  clock : Z;
  members : list MemberRow;
  failure : nat -> Call -> option Error
}.

Definition answer (w : World) (n : nat) (c : Call) : Outcome (Answer c) :=
  match failure w n c with
  | Some e => Threw e
  | None =>
      Returned
        match c return Answer c with
        | Date_now => clock w
        | db_all _ => members w
        | console_log _ => tt
        | deleteUser _ _ => tt
        | closeAllSocketsOfMember _ _ _ => tt
        | logEvents _ _ _ => tt
        | setInterval _ _ => tt
        end
  end.

(** What a run leaves behind: the calls made, in order, each with whether
    it returned ([true]) or threw ([false]). *)
Definition Trace : Type := list (Call * bool).

Definition returned {A : Type} (o : Outcome A) : bool :=
  match o with
  | Returned _ => true
  | Threw _ => false
  end.

(** [exec p w n] runs [p] in [w], its first call being number [n] of the
    run. *)
Fixpoint exec {A : Type} (p : Eff A) (w : World) (n : nat)
  : Trace * Outcome A :=
  match p with
  | Ret a => ([], Returned a)
  | Throw e => ([], Threw e)
  | Vis c k =>
      let o := answer w n c in
      let (t, r) := exec (k o) w (S n) in
      ((c, returned o) :: t, r)
  end.

Definition trace {A : Type} (p : Eff A) (w : World) : Trace :=
  fst (exec p w 0%nat).

Definition outcome {A : Type} (p : Eff A) (w : World) : Outcome A :=
  snd (exec p w 0%nat).

Declare Scope server_scope.
Notation "x <- m ;; k" := (bind m (fun x => k))
  (at level 61, m at next level, right associativity) : server_scope.
Local Infix "++" := String.append : server_scope.
Local Open Scope string_scope.
Local Open Scope server_scope.

(** The double-quote character, which the messages put around the user
    id. *)
Definition doubleQuote : string :=
  String.String (Ascii.ascii_of_nat 34) String.EmptyString.

Definition millisecondsInADay : Z := 1000 * 60 * 60 * 24.

Definition notNullVerificationMembersQuery : string :=
  "SELECT user_id, username, joined, verification FROM members WHERE verification IS NOT NULL".

Section Job.

(** [JSON.parse], which returns a value or throws a [SyntaxError]. *)
Variable JSON_parse : string -> Outcome JSON.

(** The [TypeError] of reading a property of [null]. *)
Variable nullPropertyError : Error.

(** [timeutil.sqliteToTimestamp] of the absent [timeutil.js]. *)
Variable sqliteToTimestamp : string -> Outcome Z.

(** The text a template literal puts for a number. *)
Variable numberToString : number -> string.

(** The two constants of the absent [config.js]. *)
Variable maxExistenceTimeForUnverifiedAccountMillis : Z.
Variable intervalForRemovalOfOldUnverifiedAccountsMillis : Z.

(** [verification.verified], on the value [JSON.parse] returned. *)
Definition verified (verification : JSON) : Outcome (option JSON) :=
  match verification with
  | JNull => Threw nullPropertyError
  | JObject properties => Returned (property "verified" properties)
  | _ => Returned None
  end.

Definition removedMessage (user_id : Z) : string :=
  "Removed unverified account of id " ++ doubleQuote
  ++ numberToString (inject_Z user_id) ++ doubleQuote
  ++ " for being unverified more than "
  ++ numberToString
       (inject_Z maxExistenceTimeForUnverifiedAccountMillis
        / inject_Z millisecondsInADay)
  ++ " days.".

Definition errorMessage (error : Error) : string :=
  "Error removing old unverified accounts: " ++ stack error.

(** The body of the loop of [removeOldUnverifiedMembers], for one row. *)
Definition forMemberRow (now : Z) (reason_deleted : string)
    (memberRow : MemberRow) : Eff unit :=
  let user_id := user_id memberRow in
  let joined := joined memberRow in
  let verification := verification memberRow in
  verification <- lift (JSON_parse verification) ;;
  isVerified <- lift (verified verification) ;;
  if truthy isVerified then Ret tt
  else
    joinedTimestamp <- lift (sqliteToTimestamp joined) ;;
    let timeSinceJoined := (now - joinedTimestamp)%Z in
    if (timeSinceJoined >? maxExistenceTimeForUnverifiedAccountMillis)%Z
    then
      _ <- call (deleteUser user_id reason_deleted) ;;
      _ <- call (closeAllSocketsOfMember user_id 1008 "Logged out") ;;
      call (logEvents (removedMessage user_id) "deletedAccounts.txt" true)
    else Ret tt.

Definition removeOldUnverifiedMembers : Eff unit :=
  try_catch
    (_ <- call (console_log "Checking for old unverified accounts.") ;;
     now <- call Date_now ;;
     notNullVerificationMembers
       <- call (db_all notNullVerificationMembersQuery) ;;
     let reason_deleted := "unverified" in
     forOf notNullVerificationMembers (forMemberRow now reason_deleted))
    (fun error => call (logEvents (errorMessage error) "errLog.txt" true)).

Definition startPeriodicDeleteUnverifiedMembers : Eff unit :=
  _ <- removeOldUnverifiedMembers ;;
  call (setInterval removeOldUnverifiedMembers_callback
          intervalForRemovalOfOldUnverifiedAccountsMillis).

(** What the loop decides for a row, from the tests of its body: the row
    is due for deletion ([Returned true]), is passed over
    ([Returned false]), or makes the body throw. *)
Definition due (now : Z) (memberRow : MemberRow) : Outcome bool :=
  match JSON_parse (verification memberRow) with
  | Threw e => Threw e
  | Returned value =>
      match verified value with
      | Threw e => Threw e
      | Returned isVerified =>
          if truthy isVerified then Returned false
          else
            match sqliteToTimestamp (joined memberRow) with
            | Threw e => Threw e
            | Returned joinedTimestamp =>
                Returned
                  (now - joinedTimestamp
                   >? maxExistenceTimeForUnverifiedAccountMillis)%Z
            end
      end
  end.

(** The three calls the loop makes for a row that is due. *)
Definition removalCalls (memberRow : MemberRow) : list Call :=
  [ deleteUser (user_id memberRow) "unverified";
    closeAllSocketsOfMember (user_id memberRow) 1008 "Logged out";
    logEvents (removedMessage (user_id memberRow)) "deletedAccounts.txt"
      true ].

(** The calls of a sweep over [rows] in which every row is decided without
    an exception. *)
Definition sweepCalls (now : Z) (rows : list MemberRow) : list Call :=
  flat_map
    (fun memberRow =>
       match due now memberRow with
       | Returned true => removalCalls memberRow
       | _ => []
       end) rows.

(** The three calls every run starts with. *)
Definition openingCalls : list Call :=
  [ console_log "Checking for old unverified accounts.";
    Date_now;
    db_all notNullVerificationMembersQuery ].

End Job.

(** A world in which no call throws. *)
Definition quiet (w : World) : Prop :=
  forall (n : nat) (c : Call), failure w n c = None.

(** The calls [calls], made one after the other from call number [n] on,
    up to the first that throws: the events, and the exception if any. *)
Fixpoint attempt (calls : list Call) (w : World) (n : nat)
  : Trace * option Error :=
  match calls with
  | [] => ([], None)
  | c :: rest =>
      match failure w n c with
      | Some e => ([(c, false)], Some e)
      | None =>
          let (t, r) := attempt rest w (S n) in
          ((c, true) :: t, r)
      end
  end.

(** In a trace, the sockets of a member are closed only right after the
    account of that member was deleted, the deletion having returned;
    [previous] is the event before the trace. *)
Fixpoint closes_follow_deletions (previous : option (Call * bool))
    (t : Trace) : Prop :=
  match t with
  | [] => True
  | event :: rest =>
      match fst event with
      | closeAllSocketsOfMember id closureCode closureReason =>
          previous = Some (deleteUser id "unverified", true)
          /\ closureCode = 1008%Z /\ closureReason = "Logged out"
      | _ => True
      end
      /\ closes_follow_deletions (Some event) rest
  end.

(** ** A sample server, to instantiate the parameters with *)

(** A stand-in for [JSON.parse] that knows four texts: the objects with
    the one property [verified], true or false, and the literals [null]
    and [true]; every other text is a syntax error. *)
Definition sampleParse (text : string) : Outcome JSON :=
  if String.eqb text
       ("{" ++ doubleQuote ++ "verified" ++ doubleQuote ++ ":true}")
  then Returned (JObject [("verified", JBool true)])
  else if String.eqb text
            ("{" ++ doubleQuote ++ "verified" ++ doubleQuote ++ ":false}")
  then Returned (JObject [("verified", JBool false)])
  else if String.eqb text "null" then Returned JNull
  else if String.eqb text "true" then Returned (JBool true)
  else Threw (mkError "SyntaxError: Unexpected token").

Definition verifiedText : string :=
  "{" ++ doubleQuote ++ "verified" ++ doubleQuote ++ ":true}".

Definition unverifiedText : string :=
  "{" ++ doubleQuote ++ "verified" ++ doubleQuote ++ ":false}".

(** A stand-in for [timeutil.sqliteToTimestamp] that knows two dates. *)
Definition sampleTimestamp (text : string) : Outcome Z :=
  if String.eqb text "2024-01-01 00:00:00" then Returned 1704067200000%Z
  else if String.eqb text "2024-01-09 12:00:00" then Returned 1704801600000%Z
  else Threw (mkError "TypeError: invalid date").

(** A stand-in for the conversion of a number to text: every number reads
    as [n]. *)
Definition sampleToString (n : number) : string := "n".

Definition sampleNullError : Error :=
  mkError "TypeError: Cannot read properties of null".

(** Three days and one day, in milliseconds. *)
Definition sampleMax : Z := 3 * millisecondsInADay.
Definition sampleInterval : Z := millisecondsInADay.

(** Four members: one verified, one unverified for eight days, one
    unverified for half a day, one whose [verification] is not JSON; and a
    fifth, unverified for eight days, after the malformed one. *)
Definition alice : MemberRow :=
  mkMemberRow 1 "alice" "2024-01-01 00:00:00" verifiedText.
Definition bob : MemberRow :=
  mkMemberRow 2 "bob" "2024-01-01 00:00:00" unverifiedText.
Definition carol : MemberRow :=
  mkMemberRow 3 "carol" "2024-01-09 12:00:00" unverifiedText.
Definition dave : MemberRow :=
  mkMemberRow 4 "dave" "2024-01-01 00:00:00" "{verified".
Definition erin : MemberRow :=
  mkMemberRow 5 "erin" "2024-01-01 00:00:00" unverifiedText.

(** The clock of the samples: 2024-01-10 00:00:00 UTC. *)
Definition sampleClock : Z := 1704844800000.

(** A world in which nothing throws and the first three members are
    returned, and one in which the query returns all five. *)
Definition quietWorld : World :=
  mkWorld sampleClock [alice; bob; carol] (fun _ _ => None).

Definition malformedWorld : World :=
  mkWorld sampleClock [alice; bob; carol; dave; erin] (fun _ _ => None).

(** A world in which the query itself throws. *)
Definition brokenDatabaseWorld : World :=
  mkWorld sampleClock []
    (fun n c =>
       match c with
       | db_all _ => Some (mkError "SqliteError: database is locked")
       | _ => None
       end).

End Server.

(** * legalmoveshapes.js in double precision

    The generators once more, over IEEE-754 binary64 as the kernel has it
    ([PrimFloat]): every operation rounds to nearest, ties to even, and a
    number may be [NaN] or infinite.  [Math.ceil] is a parameter, and so
    is [shapes.getDataCircle]. *)

Module Double.

Import PrimFloat.
Local Open Scope float_scope.
#[local] Set Warnings "-inexact-float".

Definition number : Type := float.
Bind Scope float_scope with number.
Definition Coords : Type := (number * number)%type.
Definition Color : Type := (number * number * number * number)%type.
Definition VertexData : Type := list number.

(** Programs that call [board.gsquareCenter()], as in [Board]. *)
Inductive Eff (A : Type) : Type :=
| Ret (a : A)
| GSquareCenter (k : number -> Eff A).

Arguments Ret {A} a.
Arguments GSquareCenter {A} k.

Fixpoint bind {A B : Type} (m : Eff A) (f : A -> Eff B) : Eff B :=
  match m with
  | Ret a => f a
  | GSquareCenter k => GSquareCenter (fun o => bind (k o) f)
  end.

Definition gsquareCenter : Eff number := GSquareCenter Ret.

(** The value of [p] when the board offset is [o] throughout the call. *)
Fixpoint run {A : Type} (o : number) (p : Eff A) : A :=
  match p with
  | Ret a => a
  | GSquareCenter k => run o (k o)
  end.

Record Vertex : Type := mkVertex {
  vx : number; vy : number;
  vr : number; vg : number; vb : number; va : number
}.

Definition vcolor (v : Vertex) : Color := (vr v, vg v, vb v, va v).

Fixpoint vertices_of (data : VertexData) : list Vertex :=
  match data with
  | x :: y :: r :: g :: b :: a :: rest =>
      mkVertex x y r g b a :: vertices_of rest
  | _ => []
  end.

Definition radius : number := 0.16.
Definition resolutionMultiplier : number := 28.
Definition resolutionCap : number := 32.
Definition resolutionMin : number := 5.
Definition opacityOffset : number := 0.2.
Definition triSize : number := 0.50.

Definition addTriangle (r g b a : number) (vertices : VertexData)
    (x1 y1 x2 y2 x3 y3 : number) : VertexData :=
  (vertices ++ [x1; y1; r; g; b; a;
                x2; y2; r; g; b; a;
                x3; y3; r; g; b; a])%list.

Definition getDataCornerTriangles (centerX centerY triSize : number)
    (color : Color) : VertexData :=
  let vertices := [] in
  let halfSize := 1 / 2 in
  let '(r, g, b, a) := color in
  let addTriangle := addTriangle r g b a in
  let topLeft := (centerX - halfSize, centerY + halfSize) in
  let topRight := (centerX + halfSize, centerY + halfSize) in
  let bottomLeft := (centerX - halfSize, centerY - halfSize) in
  let bottomRight := (centerX + halfSize, centerY - halfSize) in
  let cornerOffset := triSize / 2 in
  let vertices := addTriangle vertices
    (fst topLeft) (snd topLeft)
    (fst topLeft + cornerOffset) (snd topLeft)
    (fst topLeft) (snd topLeft - cornerOffset) in
  let vertices := addTriangle vertices
    (fst topRight) (snd topRight)
    (fst topRight - cornerOffset) (snd topRight)
    (fst topRight) (snd topRight - cornerOffset) in
  let vertices := addTriangle vertices
    (fst bottomLeft) (snd bottomLeft)
    (fst bottomLeft + cornerOffset) (snd bottomLeft)
    (fst bottomLeft) (snd bottomLeft + cornerOffset) in
  let vertices := addTriangle vertices
    (fst bottomRight) (snd bottomRight)
    (fst bottomRight - cornerOffset) (snd bottomRight)
    (fst bottomRight) (snd bottomRight + cornerOffset) in
  vertices.

Definition getDataLegalMoveCornerTris (coords : Coords) (color : Color)
  : Eff VertexData :=
  let '(r, g, b, a) := color in
  let a := a + opacityOffset in
  bind gsquareCenter (fun o =>
  let x := fst coords + (1 - o) - 0.5 in
  bind gsquareCenter (fun o' =>
  let y := snd coords + (1 - o') - 0.5 in
  Ret (getDataCornerTriangles x y triSize (r, g, b, a)))).

Section Dot.

(** [Math.ceil]. *)
Variable Math_ceil : number -> number.

(** [shapes.getDataCircle] of the absent [shapes.js]. *)
Variable getDataCircle :
  number -> number -> number -> number ->
  number -> number -> number -> number -> VertexData.

(** The value of the local [resolution] of [getDataLegalMoveDot] when the
    circle is requested; [resolution > resolutionCap] is
    [resolutionCap < resolution]. *)
Definition resolution (scale : number) (perspectiveOn : bool) : number :=
  let resolution :=
    if perspectiveOn then resolutionCap
    else Math_ceil (resolutionMultiplier * scale) in
  let resolution :=
    if resolutionCap <? resolution then resolutionCap else resolution in
  let resolution :=
    if resolution <? resolutionMin then resolutionMin else resolution in
  resolution.

Definition getDataLegalMoveDot (coords : Coords) (color : Color)
    (scale : number) (perspectiveOn : bool) : Eff VertexData :=
  let resolution := resolution scale perspectiveOn in
  let '(r, g, b, a) := color in
  let a := a + opacityOffset in
  bind gsquareCenter (fun o =>
  let x := fst coords + (1 - o) - 0.5 in
  bind gsquareCenter (fun o' =>
  let y := snd coords + (1 - o') - 0.5 in
  Ret (getDataCircle x y radius resolution r g b a))).

End Dot.








End Double.

(** ** Running the generators *)

Lemma getDataLegalMoveCornerTris_exec (coords : Coords) (r g b a : number)
    (answers : nat -> number) :
  exec (getDataLegalMoveCornerTris coords (r, g, b, a)) answers 0%nat
  = (getDataCornerTriangles
       (fst coords + (1 - answers 0%nat) - 0.5)
       (snd coords + (1 - answers 1%nat) - 0.5)
       triSize (r, g, b, a + opacityOffset),
     2%nat).
Proof. reflexivity. Qed.

Lemma getDataLegalMoveDot_exec
    (getDataCircle : CirclePrimitive)
    (coords : Coords) (r g b a : number) (scale : number)
    (perspectiveOn : bool) (answers : nat -> number) :
  exec (getDataLegalMoveDot getDataCircle coords (r, g, b, a)
          scale perspectiveOn) answers 0%nat
  = (getDataCircle
       (fst coords + (1 - answers 0%nat) - 0.5)
       (snd coords + (1 - answers 1%nat) - 0.5)
       radius (resolution scale perspectiveOn) r g b (a + opacityOffset),
     2%nat).
Proof. reflexivity. Qed.

(** The twelve vertices of the corner markers, in the order they are
    pushed. *)
Lemma getDataCornerTriangles_vertices (centerX centerY triSize : number)
    (r g b a : number) :
  vertices_of (getDataCornerTriangles centerX centerY triSize (r, g, b, a))
  = [ mkVertex (centerX - 1 / 2) (centerY + 1 / 2) r g b a;
      mkVertex (centerX - 1 / 2 + triSize / 2) (centerY + 1 / 2) r g b a;
      mkVertex (centerX - 1 / 2) (centerY + 1 / 2 - triSize / 2) r g b a;
      mkVertex (centerX + 1 / 2) (centerY + 1 / 2) r g b a;
      mkVertex (centerX + 1 / 2 - triSize / 2) (centerY + 1 / 2) r g b a;
      mkVertex (centerX + 1 / 2) (centerY + 1 / 2 - triSize / 2) r g b a;
      mkVertex (centerX - 1 / 2) (centerY - 1 / 2) r g b a;
      mkVertex (centerX - 1 / 2 + triSize / 2) (centerY - 1 / 2) r g b a;
      mkVertex (centerX - 1 / 2) (centerY - 1 / 2 + triSize / 2) r g b a;
      mkVertex (centerX + 1 / 2) (centerY - 1 / 2) r g b a;
      mkVertex (centerX + 1 / 2 - triSize / 2) (centerY - 1 / 2) r g b a;
      mkVertex (centerX + 1 / 2) (centerY - 1 / 2 + triSize / 2) r g b a ].
Proof. reflexivity. Qed.

Lemma getDataCornerTriangles_length (centerX centerY triSize : number)
    (color : Color) :
  length (getDataCornerTriangles centerX centerY triSize color) = 72%nat.
Proof. destruct color as [[[r g] b] a]. reflexivity. Qed.

(** ** The resolution of the dot *)

(** The two [if] statements are a clamp: [resolution] is the initial value
    brought into [resolutionMin .. resolutionCap]. *)
Lemma resolution_clamp (scale : number) (perspectiveOn : bool) :
  resolution scale perspectiveOn
  = Z.max resolutionMin
      (Z.min resolutionCap
         (if perspectiveOn then resolutionCap
          else Qceiling (resolutionMultiplier * scale))).
Proof.
  unfold resolution, resolutionCap, resolutionMin.
  destruct perspectiveOn; [reflexivity|].
  set (c := Qceiling (resolutionMultiplier * scale)).
  rewrite Z.gtb_ltb.
  destruct (Z.ltb_spec 32 c) as [Hc | Hc].
  - simpl. lia.
  - destruct (Z.ltb_spec c 5) as [Hm | Hm]; lia.
Qed.

Lemma resolution_range (scale : number) (perspectiveOn : bool) :
  (resolutionMin <= resolution scale perspectiveOn <= resolutionCap)%Z.
Proof.
  rewrite resolution_clamp. unfold resolutionMin, resolutionCap. lia.
Qed.

(** [Math.ceil] against an integer bound. *)
Lemma Qceiling_ge (z : Z) (q : Q) : inject_Z z <= q -> (z <= Qceiling q)%Z.
Proof.
  intros H. rewrite Zle_Qle.
  apply Qle_trans with q; [exact H | apply Qle_ceiling].
Qed.

Lemma Qceiling_le (z : Z) (q : Q) : q <= inject_Z z -> (Qceiling q <= z)%Z.
Proof.
  intros H. rewrite <- (Qceiling_Z z). apply Qceiling_resp_le. exact H.
Qed.

Lemma Qceiling_gt (z : Z) (q : Q) : inject_Z z < q -> (z < Qceiling q)%Z.
Proof.
  intros H. rewrite Zlt_Qlt.
  apply Qlt_le_trans with q; [exact H | apply Qle_ceiling].
Qed.

(** The two thresholds of the scale, as fractions in lowest terms. *)
Lemma cap_threshold : 32 / 28 == 8 # 7.
Proof. reflexivity. Qed.

Lemma min_threshold : 5 / 28 == 5 # 28.
Proof. reflexivity. Qed.

(** Linear arithmetic over the rationals, the thresholds written out. *)
Ltac scale_arith :=
  unfold inject_Z;
  repeat match goal with
         | H : context [32 / 28] |- _ => rewrite cap_threshold in H
         | H : context [5 / 28] |- _ => rewrite min_threshold in H
         end;
  lra.

(** C1.  For every positive scale the resolution of the dot is 32 when
    perspective mode is on, and otherwise [Math.ceil(28 * scale)] clamped
    to at most 32 and at least 5; in particular, with perspective off, it
    is 32 for every scale from 32/28 on and 5 for every scale up to
    5/28. *)
Theorem resolution_spec (scale : number) (perspectiveOn : bool)
    (Hpos : 0 < scale) :
  resolution scale perspectiveOn
  = (if perspectiveOn then 32
     else Z.max 5 (Z.min 32 (Qceiling (28 * scale))))%Z
  /\ (perspectiveOn = true -> resolution scale perspectiveOn = 32%Z)
  /\ (perspectiveOn = false -> 32 / 28 <= scale ->
      resolution scale perspectiveOn = 32%Z)
  /\ (perspectiveOn = false -> scale <= 5 / 28 ->
      resolution scale perspectiveOn = 5%Z).
Proof.
  rewrite resolution_clamp.
  unfold resolutionCap, resolutionMin, resolutionMultiplier.
  repeat split.
  - destruct perspectiveOn; reflexivity.
  - intros ->. reflexivity.
  - intros -> Hs.
    assert (32 <= Qceiling (28 * scale))%Z by (apply Qceiling_ge; scale_arith).
    lia.
  - intros -> Hs.
    assert (Qceiling (28 * scale) <= 5)%Z by (apply Qceiling_le; scale_arith).
    lia.
Qed.

Lemma resolution_spec_witness :
  (0 < 2 /\ 32 / 28 <= 2 /\ resolution 2 false = 32%Z)
  /\ (0 < 1 / 10 /\ 1 / 10 <= 5 / 28 /\ resolution (1 / 10) false = 5%Z)
  /\ (0 < 1 / 2 /\ resolution (1 / 2) false = 14%Z)
  /\ resolution (1 / 10) true = 32%Z.
Proof.
  assert (H2 : 0 < 2) by reflexivity.
  assert (H10 : 0 < 1 / 10) by reflexivity.
  assert (H12 : 0 < 1 / 2) by reflexivity.
  assert (Hcap : 32 / 28 <= 2) by discriminate.
  assert (Hmin : 1 / 10 <= 5 / 28) by discriminate.
  destruct (resolution_spec 2 false H2) as (_ & _ & Hc & _).
  destruct (resolution_spec (1 / 10) false H10) as (_ & _ & _ & Hm).
  destruct (resolution_spec (1 / 2) false H12) as (Hmid & _).
  destruct (resolution_spec (1 / 10) true H10) as (_ & Hp & _).
  refine (conj (conj H2 (conj Hcap _))
            (conj (conj H10 (conj Hmin _)) (conj (conj H12 _) _))).
  - exact (Hc eq_refl Hcap).
  - exact (Hm eq_refl Hmin).
  - rewrite Hmid. reflexivity.
  - exact (Hp eq_refl).
Defined.

(** C8.  With perspective off the resolution is monotonically
    non-decreasing in the scale, and for a scale strictly between 5/28 and
    32/28 it is [Math.ceil(28 * scale)]. *)
Theorem resolution_monotone (s1 s2 : number)
    (Hpos : 0 < s1) (Hle : s1 <= s2) :
  (resolution s1 false <= resolution s2 false)%Z
  /\ (5 / 28 < s1 -> s1 < 32 / 28 ->
      resolution s1 false = Qceiling (28 * s1)).
Proof.
  rewrite !resolution_clamp.
  unfold resolutionCap, resolutionMin, resolutionMultiplier.
  split.
  - assert (Qceiling (28 * s1) <= Qceiling (28 * s2))%Z
      by (apply Qceiling_resp_le; scale_arith).
    lia.
  - intros Hlo Hhi.
    assert (5 < Qceiling (28 * s1))%Z by (apply Qceiling_gt; scale_arith).
    assert (Qceiling (28 * s1) <= 32)%Z by (apply Qceiling_le; scale_arith).
    lia.
Qed.

Lemma resolution_monotone_witness :
  (0 < 1 / 4 /\ 1 / 4 <= 1
   /\ (resolution (1 / 4) false <= resolution 1 false)%Z)
  /\ (5 / 28 < 1 / 4 /\ 1 / 4 < 32 / 28
      /\ resolution (1 / 4) false = Qceiling (28 * (1 / 4))).
Proof.
  assert (Hpos : 0 < 1 / 4) by reflexivity.
  assert (Hle : 1 / 4 <= 1) by discriminate.
  assert (Hlo : 5 / 28 < 1 / 4) by reflexivity.
  assert (Hhi : 1 / 4 < 32 / 28) by reflexivity.
  destruct (resolution_monotone (1 / 4) 1 Hpos Hle) as [Hmono Hmid].
  exact (conj (conj Hpos (conj Hle Hmono))
           (conj Hlo (conj Hhi (Hmid Hlo Hhi)))).
Defined.

(** ** [fanCircle] meets the contract *)

Lemma fanSlices_length (x y rad : number) (res : Z) (r g b a : number)
    (n : nat) (i : Z) :
  length (fanSlices x y rad res r g b a n i) = (n * 18)%nat.
Proof.
  revert i. induction n as [| n IH]; intros i; [reflexivity|].
  cbn [fanSlices]. rewrite length_app, IH. simpl. lia.
Qed.

Lemma fanSlices_triangles (x y rad : number) (res : Z) (r g b a : number)
    (n : nat) (i : Z) :
  length (triangles_of (fanSlices x y rad res r g b a n i)) = n.
Proof.
  revert i. induction n as [| n IH]; intros i; [reflexivity|].
  unfold triangles_of in *. cbn [fanSlices app vertices_of group3 length].
  rewrite IH. reflexivity.
Qed.

Lemma fanSlices_colors (x y rad : number) (res : Z) (r g b a : number)
    (n : nat) (i : Z) :
  Forall (fun v => vcolor v = (r, g, b, a))
    (vertices_of (fanSlices x y rad res r g b a n i)).
Proof.
  revert i. induction n as [| n IH]; intros i; [constructor|].
  cbn [fanSlices app vertices_of].
  repeat (constructor; [reflexivity|]). apply IH.
Qed.

Lemma fanCircle_emits_resolution_triangles :
  emits_resolution_triangles fanCircle.
Proof.
  intros x y rad res r g b a Hres. unfold fanCircle. split.
  - apply fanSlices_triangles.
  - rewrite fanSlices_length. lia.
Qed.

Lemma fanCircle_colors_every_vertex : colors_every_vertex fanCircle.
Proof.
  intros x y rad res r g b a. unfold fanCircle. apply fanSlices_colors.
Qed.

(** ** Buffer lengths *)

(** C2.  Whatever the tile coordinate, the colour and the board, the
    buffer of [getDataLegalMoveCornerTris] holds exactly 72 numbers:
    4 triangles of 3 vertices of 6 numbers.  The generator takes neither a
    scale nor a perspective flag. *)
Theorem getDataLegalMoveCornerTris_length (coords : Coords) (color : Color)
    (answers : nat -> number) :
  length (result (getDataLegalMoveCornerTris coords color) answers) = 72%nat
  /\ length (triangles_of
               (result (getDataLegalMoveCornerTris coords color) answers))
     = 4%nat
  /\ length (vertices_of
               (result (getDataLegalMoveCornerTris coords color) answers))
     = 12%nat.
Proof.
  destruct color as [[[r g] b] a]. unfold result.
  rewrite getDataLegalMoveCornerTris_exec. cbn [fst].
  split; [apply getDataCornerTriangles_length | split; reflexivity].
Qed.

(** Three vertices make a triangle: a buffer holds at least three times
    as many vertices as triangles. *)
Lemma group3_length (vs : list Vertex) :
  (3 * length (group3 vs) <= length vs)%nat.
Proof.
  assert (H : forall (n : nat) (l : list Vertex),
             (length l <= n)%nat ->
             (3 * length (group3 l) <= length l)%nat).
  { induction n as [| n IH]; intros l Hl.
    - destruct l; [cbn; lia | cbn in Hl; lia].
    - destruct l as [| p [| q [| s rest]]]; cbn [group3 length]; try lia.
      cbn [length] in Hl. specialize (IH rest). lia. }
  apply (H (length vs)). lia.
Qed.

Section CircleContract.

Variable getDataCircle : CirclePrimitive.
Hypothesis circle_triangles : emits_resolution_triangles getDataCircle.
Hypothesis circle_colors : colors_every_vertex getDataCircle.

(** C3.  If the circle primitive emits exactly [resolution] triangles of
    3 vertices of 6 numbers each, the buffer of [getDataLegalMoveDot]
    holds [resolution] triangles and [resolution * 18] numbers, and the
    length of the buffer of either generator is a multiple of 18. *)
Theorem getDataLegalMoveDot_length (coords : Coords) (color : Color)
    (scale : number) (perspectiveOn : bool) (answers : nat -> number) :
  let dot :=
    result (getDataLegalMoveDot getDataCircle coords color
              scale perspectiveOn) answers in
  let tris := result (getDataLegalMoveCornerTris coords color) answers in
  Z.of_nat (length dot) = (resolution scale perspectiveOn * 18)%Z
  /\ Z.of_nat (length (triangles_of dot)) = resolution scale perspectiveOn
  /\ (length dot mod 18 = 0)%nat
  /\ (length tris mod 18 = 0)%nat.
Proof.
  destruct color as [[[r g] b] a]. unfold result.
  rewrite getDataLegalMoveDot_exec, getDataLegalMoveCornerTris_exec.
  cbn [fst].
  pose proof (resolution_range scale perspectiveOn) as Hrange.
  unfold resolutionMin in Hrange.
  destruct (circle_triangles
              (fst coords + (1 - answers 0%nat) - 0.5)
              (snd coords + (1 - answers 1%nat) - 0.5)
              radius (resolution scale perspectiveOn) r g b
              (a + opacityOffset)) as [Htri Hlen]; [lia|].
  split; [exact Hlen | split; [| split]].
  - rewrite Htri. lia.
  - apply Nat2Z.inj. rewrite Nat2Z.inj_mod, Hlen.
    apply Z.mod_mul. discriminate.
  - reflexivity.
Qed.

(** C4.  For every input colour [[r, g, b, a]] every vertex of either
    generator carries [r], [g], [b] unchanged and the alpha [a + 0.2], with
    no clamp.  The dot is the buffer of the circle primitive called with
    the colour [(r, g, b, a + 0.2)]; the primitive is taken to emit
    [resolution] triangles and to colour every vertex as it is asked to,
    so the dot has at least 15 vertices and each of them carries that
    colour.  The corner markers have twelve vertices, each with that
    colour. *)
Theorem opacity_offset (coords : Coords) (r g b a : number)
    (scale : number) (perspectiveOn : bool) (answers : nat -> number) :
  let dot :=
    result (getDataLegalMoveDot getDataCircle coords (r, g, b, a)
              scale perspectiveOn) answers in
  let tris :=
    result (getDataLegalMoveCornerTris coords (r, g, b, a)) answers in
  dot
  = getDataCircle
      (fst coords + (1 - answers 0%nat) - 0.5)
      (snd coords + (1 - answers 1%nat) - 0.5)
      radius (resolution scale perspectiveOn) r g b (a + 0.2)
  /\ (15 <= length (vertices_of dot))%nat
  /\ Forall (fun v => vcolor v = (r, g, b, a + 0.2)) (vertices_of dot)
  /\ map vcolor (vertices_of tris) = repeat (r, g, b, a + 0.2) 12
  /\ Forall (fun v => vcolor v = (r, g, b, a + 0.2)) (vertices_of tris).
Proof.
  cbv zeta. unfold result.
  rewrite getDataLegalMoveDot_exec, getDataLegalMoveCornerTris_exec.
  cbn [fst].
  pose proof (resolution_range scale perspectiveOn) as Hrange.
  unfold resolutionMin in Hrange.
  split; [reflexivity | split; [| split; [| split]]].
  - destruct (circle_triangles
                (fst coords + (1 - answers 0%nat) - 0.5)
                (snd coords + (1 - answers 1%nat) - 0.5)
                radius (resolution scale perspectiveOn) r g b
                (a + opacityOffset)) as [Htri _]; [lia|].
    unfold triangles_of in Htri.
    pose proof (group3_length
                  (vertices_of
                     (getDataCircle
                        (fst coords + (1 - answers 0%nat) - 0.5)
                        (snd coords + (1 - answers 1%nat) - 0.5)
                        radius (resolution scale perspectiveOn) r g b
                        (a + opacityOffset)))) as Hlen.
    rewrite Htri in Hlen. lia.
  - apply circle_colors.
  - rewrite getDataCornerTriangles_vertices. reflexivity.
  - rewrite getDataCornerTriangles_vertices.
    repeat (constructor; [reflexivity|]). constructor.
Qed.

End CircleContract.

Lemma getDataLegalMoveDot_length_witness :
  emits_resolution_triangles fanCircle
  /\ length (result (getDataLegalMoveDot fanCircle (0, 0) (1, 0, 0, 0.5)
                       1 false) (fun _ => 0.5)) = 504%nat
  /\ length (result (getDataLegalMoveDot fanCircle (2, 3) (0, 1, 0, 0)
                       0.1 true) (fun _ => 0.5)) = 576%nat.
Proof.
  pose proof (getDataLegalMoveDot_length fanCircle
                fanCircle_emits_resolution_triangles
                (0, 0) (1, 0, 0, 0.5) 1 false (fun _ => 0.5)) as HA.
  pose proof (getDataLegalMoveDot_length fanCircle
                fanCircle_emits_resolution_triangles
                (2, 3) (0, 1, 0, 0) 0.1 true (fun _ => 0.5)) as HB.
  cbv zeta in HA, HB.
  destruct HA as (HA & _). destruct HB as (HB & _).
  refine (conj fanCircle_emits_resolution_triangles (conj _ _));
    apply Nat2Z.inj.
  - rewrite HA. reflexivity.
  - rewrite HB. reflexivity.
Defined.

Lemma opacity_offset_witness :
  emits_resolution_triangles fanCircle
  /\ colors_every_vertex fanCircle
  /\ (let dot :=
        result (getDataLegalMoveDot fanCircle (5, 5) (0, 0, 1, 0.9)
                  1 false) (fun _ => 0.5) in
      (15 <= length (vertices_of dot))%nat
      /\ Forall (fun v => vcolor v = (0, 0, 1, 0.9 + 0.2)) (vertices_of dot))
  /\ map vcolor
       (vertices_of
          (result (getDataLegalMoveCornerTris (5, 5) (0, 0, 1, 0.9))
             (fun _ => 0.5)))
     = repeat (0, 0, 1, 0.9 + 0.2) 12
  /\ 1 < 0.9 + 0.2.
Proof.
  refine (conj fanCircle_emits_resolution_triangles
            (conj fanCircle_colors_every_vertex _)).
  destruct (opacity_offset fanCircle fanCircle_emits_resolution_triangles
              fanCircle_colors_every_vertex
              (5, 5) 0 0 1 0.9 1 false (fun _ => 0.5))
    as (_ & Hcount & Hdot & Htris & _).
  exact (conj (conj Hcount Hdot) (conj Htris eq_refl)).
Defined.

(** ** The centre of the tile *)

(** C5.  With the board offset at [o], both generators place their shape
    at [(cx + (1 - o) - 0.5, cy + (1 - o) - 0.5)]: the dot requests its
    circle there, and the corner markers are built around that centre. *)
Theorem tile_center (getDataCircle : CirclePrimitive) (cx cy : number)
    (r g b a : number) (scale : number) (perspectiveOn : bool)
    (o : number) :
  run o (getDataLegalMoveDot getDataCircle (cx, cy) (r, g, b, a)
           scale perspectiveOn)
  = getDataCircle (cx + (1 - o) - 0.5) (cy + (1 - o) - 0.5)
      radius (resolution scale perspectiveOn) r g b (a + 0.2)
  /\ run o (getDataLegalMoveCornerTris (cx, cy) (r, g, b, a))
     = getDataCornerTriangles (cx + (1 - o) - 0.5) (cy + (1 - o) - 0.5)
         triSize (r, g, b, a + 0.2).
Proof.
  unfold run, result.
  rewrite getDataLegalMoveDot_exec, getDataLegalMoveCornerTris_exec.
  split; reflexivity.
Qed.

(** ** The corner markers *)

Lemma run_getDataLegalMoveCornerTris_vertices (cx cy : number)
    (r g b a : number) (o : number) :
  vertices_of (run o (getDataLegalMoveCornerTris (cx, cy) (r, g, b, a)))
  = vertices_of
      (getDataCornerTriangles (cx + (1 - o) - 0.5) (cy + (1 - o) - 0.5)
         triSize (r, g, b, a + opacityOffset)).
Proof. reflexivity. Qed.

(** C6.  The buffer of the corner markers is four triangles, one for the
    top-left, top-right, bottom-left and bottom-right corner of the unit
    tile around the computed centre, in this order; each has its first
    vertex at the corner, its second vertex [triSize / 2 = 0.25] from it
    horizontally toward the interior and its third vertex [0.25] from it
    vertically toward the interior, [triSize] being [0.50]. *)
Theorem corner_triangles_shape (cx cy : number) (color : Color)
    (o : number) :
  let centerX := cx + (1 - o) - 0.5 in
  let centerY := cy + (1 - o) - 0.5 in
  triSize == 0.50 /\ triSize / 2 == 0.25
  /\ exists topLeft topRight bottomLeft bottomRight : Triangle,
       triangles_of (run o (getDataLegalMoveCornerTris (cx, cy) color))
       = [topLeft; topRight; bottomLeft; bottomRight]
       /\ corner_triangle centerX centerY (-1) 1 topLeft
       /\ corner_triangle centerX centerY 1 1 topRight
       /\ corner_triangle centerX centerY (-1) (-1) bottomLeft
       /\ corner_triangle centerX centerY 1 (-1) bottomRight.
Proof.
  destruct color as [[[r g] b] a]. cbv zeta.
  split; [reflexivity | split; [reflexivity |]].
  unfold triangles_of.
  rewrite run_getDataLegalMoveCornerTris_vertices,
    getDataCornerTriangles_vertices.
  cbn [group3].
  do 4 eexists. split; [reflexivity|].
  unfold corner_triangle, triSize; cbn [v1 v2 v3 vx vy].
  repeat split; field.
Qed.

(** Twice the signed area of the four triangles, in the order they are
    pushed. *)
Lemma corner_triangles_signed_areas (centerX centerY : number)
    (color : Color) :
  Forall2 Qeq
    (map signedArea2
       (triangles_of (getDataCornerTriangles centerX centerY triSize color)))
    [- (1 # 16); 1 # 16; 1 # 16; - (1 # 16)].
Proof.
  destruct color as [[[r g] b] a]. unfold triangles_of.
  rewrite getDataCornerTriangles_vertices. cbn [group3 map].
  unfold signedArea2, triSize; cbn [v1 v2 v3 vx vy].
  repeat (constructor; [field|]). constructor.
Qed.

(** C7 (what the code does).  For every input the four triangles of the
    corner markers carry one colour, but not one winding: the top-left and
    the bottom-right triangle have a negative signed area (clockwise), the
    top-right and the bottom-left one a positive signed area
    (counter-clockwise).  So the four are not all clockwise, against the
    comment of the source, "triangles are clockwise in each corner". *)
Theorem corner_triangles_winding (cx cy : number) (r g b a : number)
    (o : number) :
  let tris :=
    triangles_of (run o (getDataLegalMoveCornerTris (cx, cy) (r, g, b, a)))
  in
  (exists topLeft topRight bottomLeft bottomRight : Triangle,
      tris = [topLeft; topRight; bottomLeft; bottomRight]
      /\ signedArea2 topLeft < 0 /\ 0 < signedArea2 topRight
      /\ 0 < signedArea2 bottomLeft /\ signedArea2 bottomRight < 0)
  /\ ~ Forall (fun t => signedArea2 t < 0) tris
  /\ Forall (fun t => vcolor (v1 t) = (r, g, b, a + 0.2)
                      /\ vcolor (v2 t) = (r, g, b, a + 0.2)
                      /\ vcolor (v3 t) = (r, g, b, a + 0.2)) tris.
Proof.
  cbv zeta.
  pose proof (corner_triangles_signed_areas
                (cx + (1 - o) - 0.5) (cy + (1 - o) - 0.5)
                (r, g, b, a + opacityOffset)) as Hareas.
  unfold triangles_of in *.
  rewrite run_getDataLegalMoveCornerTris_vertices.
  rewrite getDataCornerTriangles_vertices in *.
  cbn [group3 map] in *.
  inversion_clear Hareas as [| ? ? ? ? Htl Hrest].
  inversion_clear Hrest as [| ? ? ? ? Htr Hrest'].
  inversion_clear Hrest' as [| ? ? ? ? Hbl Hrest].
  inversion_clear Hrest as [| ? ? ? ? Hbr _].
  split; [| split].
  - do 4 eexists. split; [reflexivity|].
    rewrite Htl, Htr, Hbl, Hbr.
    repeat split.
  - intros Hall.
    inversion_clear Hall as [| ? ? _ Hall'].
    inversion_clear Hall' as [| ? ? Hneg _].
    rewrite Htr in Hneg. discriminate Hneg.
  - repeat (constructor; [repeat split; reflexivity|]). constructor.
Qed.

(** ** Readings of the board offset *)

(** C9 (as stated) fails: one call of a generator reads the offset twice,
    not once, and on a board whose offset moves between the two readings
    the x and the y of the centre come from different readings. *)
Lemma offset_read_once_counterexample :
  reads (getDataLegalMoveCornerTris (0, 0) (1, 0, 0, 0.5)) (fun _ => 0.5)
  <> 1%nat
  /\ reads (getDataLegalMoveDot fanCircle (0, 0) (1, 0, 0, 0.5) 1 false)
       (fun _ => 0.5)
     <> 1%nat
  /\ result (getDataLegalMoveCornerTris (0, 0) (1, 0, 0, 0.5))
       (fun n => match n with O => 0 | _ => 1 end)
     = getDataCornerTriangles (0 + (1 - 0) - 0.5) (0 + (1 - 1) - 0.5)
         triSize (1, 0, 0, 0.5 + 0.2).
Proof.
  split; [| split].
  - discriminate.
  - discriminate.
  - reflexivity.
Qed.

(** C9 (amended).  One call of either generator reads the board offset
    exactly twice: the first reading gives the x of the centre, the second
    its y.  The two coordinates come from one offset whenever the two
    readings agree, as they do on a board that is not changed during the
    call. *)
Theorem offset_read_twice (getDataCircle : CirclePrimitive)
    (cx cy : number) (r g b a : number) (scale : number)
    (perspectiveOn : bool) (answers : nat -> number) :
  let dot :=
    getDataLegalMoveDot getDataCircle (cx, cy) (r, g, b, a)
      scale perspectiveOn in
  let tris := getDataLegalMoveCornerTris (cx, cy) (r, g, b, a) in
  reads dot answers = 2%nat
  /\ reads tris answers = 2%nat
  /\ result dot answers
     = getDataCircle
         (cx + (1 - answers 0%nat) - 0.5) (cy + (1 - answers 1%nat) - 0.5)
         radius (resolution scale perspectiveOn) r g b (a + 0.2)
  /\ result tris answers
     = getDataCornerTriangles
         (cx + (1 - answers 0%nat) - 0.5) (cy + (1 - answers 1%nat) - 0.5)
         triSize (r, g, b, a + 0.2).
Proof.
  cbv zeta. unfold reads, result.
  rewrite getDataLegalMoveDot_exec, getDataLegalMoveCornerTris_exec.
  repeat split.
Qed.

(** ** The scenarios of the specification, evaluated *)

(** Scenario A: at scale 1 without perspective the dot has 28 slices, and
    every vertex of the fan carries the colour [(1, 0, 0, 0.5 + 0.2)]. *)
Example scenario_A :
  resolution 1 false = 28%Z
  /\ length (run 0.5 (getDataLegalMoveDot fanCircle (0, 0) (1, 0, 0, 0.5)
                        1 false)) = 504%nat
  /\ forallb (fun v => Qeq_bool (vr v) 1 && Qeq_bool (vg v) 0
                       && Qeq_bool (vb v) 0 && Qeq_bool (va v) 0.7)
       (vertices_of
          (run 0.5 (getDataLegalMoveDot fanCircle (0, 0) (1, 0, 0, 0.5)
                      1 false))) = true.
Proof. split; [| split]; vm_compute; reflexivity. Qed.

(** Scenario B: perspective mode forces 32 slices at the tiny scale 0.1. *)
Example scenario_B :
  resolution 0.1 true = 32%Z
  /\ length (run 0.5 (getDataLegalMoveDot fanCircle (2, 3) (0, 1, 0, 0)
                        0.1 true)) = 576%nat.
Proof. split; vm_compute; reflexivity. Qed.

(** Scenario C: the corner markers of tile [(5, 5)] are 72 numbers, and the
    alpha of every vertex is [0.3 + 0.2 = 0.5]. *)
Example scenario_C :
  length (run 0.5 (getDataLegalMoveCornerTris (5, 5) (0, 0, 1, 0.3)))
  = 72%nat
  /\ forallb (fun v => Qeq_bool (va v) 0.5)
       (vertices_of
          (run 0.5 (getDataLegalMoveCornerTris (5, 5) (0, 0, 1, 0.3))))
     = true.
Proof. split; vm_compute; reflexivity. Qed.

(** * legalmoveshapes.js in double precision: translation of the tile *)

Section DoublePrecision.

Import PrimFloat.
Local Open Scope float_scope.
#[local] Set Warnings "-inexact-float".













(** ** The clamp of the resolution, and NaN *)

(** The order of [SpecFloat], by which the kernel's comparisons are
    specified: comparing the other way round gives the opposite answer,
    and a value fails to equal itself only if it is NaN. *)
Lemma SFcompare_antisym (x y : SpecFloat.spec_float) :
  SpecFloat.SFcompare y x = option_map CompOpp (SpecFloat.SFcompare x y).
Proof.
  destruct x as [sx | sx | | sx mx ex], y as [sy | sy | | sy my ey];
    try (destruct sx); try (destruct sy); cbn; try reflexivity.
  all: rewrite (Z.compare_antisym ex ey).
  all: destruct (ex ?= ey)%Z; cbn; try reflexivity.
  all: rewrite (Pos.compare_cont_antisym mx my Eq); reflexivity.
Qed.

Lemma SFeqb_self (x : SpecFloat.spec_float) :
  SpecFloat.SFeqb x x = false -> x = SpecFloat.S754_nan.
Proof.
  destruct x as [s | s | | s m e]; unfold SpecFloat.SFeqb; cbn;
    try (destruct s); cbn; try discriminate; try reflexivity.
  all: rewrite Z.compare_refl, Pos.compare_cont_refl; discriminate.
Qed.

Lemma SFleb_of_not_SFltb (x y : SpecFloat.spec_float) :
  SpecFloat.SFeqb x x = true -> SpecFloat.SFeqb y y = true ->
  SpecFloat.SFltb x y = false -> SpecFloat.SFleb y x = true.
Proof.
  unfold SpecFloat.SFltb, SpecFloat.SFleb. rewrite (SFcompare_antisym x y).
  intros Hx Hy.
  destruct (SpecFloat.SFcompare x y) as [[| |] |] eqn:E; cbn;
    try reflexivity; try discriminate.
  intros _.
  destruct x as [sx | sx | | sx mx ex], y as [sy | sy | | sy my ey];
    cbn in E; try discriminate E;
    first [discriminate Hx | discriminate Hy].
Qed.

(** The same on the kernel's numbers. *)
Lemma leb_of_not_ltb (x y : float) :
  (x =? x) = true -> (y =? y) = true -> (x <? y) = false ->
  (y <=? x) = true.
Proof.
  rewrite !FloatAxioms.eqb_spec, FloatAxioms.ltb_spec, FloatAxioms.leb_spec.
  apply SFleb_of_not_SFltb.
Qed.

Lemma ltb_NaN (x y : float) :
  (x =? x) = false -> (x <? y) = false /\ (y <? x) = false.
Proof.
  rewrite FloatAxioms.eqb_spec, !FloatAxioms.ltb_spec. intros H.
  rewrite (SFeqb_self _ H). unfold SpecFloat.SFltb. cbn.
  split; [reflexivity | destruct (FloatOps.Prim2SF y); reflexivity].
Qed.

(** X1.  In double precision the clamp of the resolution holds for numbers
    only.  With perspective on the resolution is 32 whatever the scale.
    With perspective off it lies between 5 and 32 whenever
    [Math.ceil(28 * scale)] is a number, infinite ones included; when that
    is NaN both comparisons of the clamp are false and the resolution is
    NaN.  Either way it is the resolution the circle primitive is called
    with. *)
Theorem resolution_clamped_unless_NaN (Math_ceil : float -> float)
    (getDataCircle :
       float -> float -> float -> float ->
       float -> float -> float -> float -> Double.VertexData)
    (coords : Double.Coords) (r g b a : float)
    (scale : float) (perspectiveOn : bool) (o : float) :
  let ceiling := Math_ceil (28 * scale) in
  let resolution := Double.resolution Math_ceil scale perspectiveOn in
  Double.run o (Double.getDataLegalMoveDot Math_ceil getDataCircle coords
                  (r, g, b, a) scale perspectiveOn)
  = getDataCircle (fst coords + (1 - o) - 0.5) (snd coords + (1 - o) - 0.5)
      0.16 resolution r g b (a + 0.2)
  /\ (perspectiveOn = true -> resolution = 32)
  /\ (perspectiveOn = false -> (ceiling =? ceiling) = true ->
      (5 <=? resolution) = true /\ (resolution <=? 32) = true)
  /\ (perspectiveOn = false -> (ceiling =? ceiling) = false ->
      resolution = ceiling /\ (resolution =? resolution) = false).
Proof.
  cbv zeta. split; [reflexivity |].
  unfold Double.resolution, Double.resolutionCap, Double.resolutionMin,
    Double.resolutionMultiplier.
  split; [| split].
  - intros ->. reflexivity.
  - intros -> Hnumber.
    set (c := Math_ceil (28 * scale)) in *.
    destruct (32 <? c) eqn:Hcap.
    + split; reflexivity.
    + destruct (c <? 5) eqn:Hmin.
      * split; reflexivity.
      * split; apply leb_of_not_ltb; try assumption; reflexivity.
  - intros -> HNaN.
    set (c := Math_ceil (28 * scale)) in *.
    destruct (ltb_NaN c 32 HNaN) as [_ Hcap].
    destruct (ltb_NaN c 5 HNaN) as [Hmin _].
    rewrite Hcap, Hmin. split; [reflexivity | exact HNaN].
Qed.

End DoublePrecision.

(** * Properties of deleteUnverifiedMembers.js *)

Local Open Scope string_scope.

(** ** Running programs of the server *)

Lemma server_exec_bind {A B : Type} (m : Server.Eff A)
    (f : A -> Server.Eff B) (w : Server.World) (n : nat) :
  Server.exec (Server.bind m f) w n
  = match Server.exec m w n with
    | (t1, Server.Returned a) =>
        let (t2, r) := Server.exec (f a) w (n + length t1) in
        (t1 ++ t2, r)
    | (t1, Server.Threw e) => (t1, Server.Threw e)
    end.
Proof.
  revert n. induction m as [a | e | c k IH]; intros n.
  - cbn. rewrite Nat.add_0_r. destruct (Server.exec (f a) w n). reflexivity.
  - reflexivity.
  - cbn [Server.bind Server.exec]. rewrite IH.
    destruct (Server.exec (k (Server.answer w n c)) w (S n)) as [t1 [a | e]].
    + cbn [length]. rewrite Nat.add_succ_r.
      change (S n + length t1)%nat with (S (n + length t1)).
      destruct (Server.exec (f a) w (S (n + length t1))). reflexivity.
    + reflexivity.
Qed.

Lemma server_exec_try_catch {A : Type} (body : Server.Eff A)
    (handler : Server.Error -> Server.Eff A) (w : Server.World) (n : nat) :
  Server.exec (Server.try_catch body handler) w n
  = match Server.exec body w n with
    | (t1, Server.Returned a) => (t1, Server.Returned a)
    | (t1, Server.Threw e) =>
        let (t2, r) := Server.exec (handler e) w (n + length t1) in
        (t1 ++ t2, r)
    end.
Proof.
  revert n. induction body as [a | e | c k IH]; intros n.
  - reflexivity.
  - cbn. rewrite Nat.add_0_r. destruct (Server.exec (handler e) w n).
    reflexivity.
  - cbn [Server.try_catch Server.exec]. rewrite IH.
    destruct (Server.exec (k (Server.answer w n c)) w (S n)) as [t1 [a | e]].
    + reflexivity.
    + cbn [length]. rewrite Nat.add_succ_r.
      change (S n + length t1)%nat with (S (n + length t1)).
      destruct (Server.exec (handler e) w (S (n + length t1))). reflexivity.
Qed.

(** A call followed by the rest of a program, with and without use of
    what the call returned, and the call of [logEvents] that ends one. *)
Lemma server_exec_call_then {A : Type} (c : Server.Call)
    (rest : Server.Eff A) (w : Server.World) (n : nat) :
  Server.exec (Server.bind (Server.call c) (fun _ => rest)) w n
  = match Server.failure w n c with
    | Some e => ([(c, false)], Server.Threw e)
    | None =>
        let (t, r) := Server.exec rest w (S n) in ((c, true) :: t, r)
    end.
Proof.
  cbn [Server.call Server.bind Server.exec]. unfold Server.answer.
  destruct (Server.failure w n c); reflexivity.
Qed.

Lemma server_exec_call_bind {A : Type} (c : Server.Call)
    (f : Server.Answer c -> Server.Eff A) (w : Server.World) (n : nat) :
  Server.exec (Server.bind (Server.call c) f) w n
  = match Server.answer w n c with
    | Server.Threw e => ([(c, false)], Server.Threw e)
    | Server.Returned x =>
        let (t, r) := Server.exec (f x) w (S n) in ((c, true) :: t, r)
    end.
Proof.
  cbn [Server.call Server.bind Server.exec].
  destruct (Server.answer w n c); reflexivity.
Qed.

Lemma server_exec_logEvents (message fileName : Server.string)
    (print : bool) (w : Server.World) (n : nat) :
  Server.exec (A := unit)
    (Server.call (Server.logEvents message fileName print)) w n
  = match Server.failure w n (Server.logEvents message fileName print) with
    | Some e =>
        ([(Server.logEvents message fileName print, false)],
         Server.Threw e)
    | None =>
        ([(Server.logEvents message fileName print, true)],
         Server.Returned tt)
    end.
Proof.
  cbn [Server.call Server.exec]. unfold Server.answer.
  destruct (Server.failure w n _); reflexivity.
Qed.

Section ServerJob.

Variable JSON_parse : Server.string -> Server.Outcome Server.JSON.
Variable nullPropertyError : Server.Error.
Variable sqliteToTimestamp : Server.string -> Server.Outcome Z.
Variable numberToString : number -> Server.string.
Variable maxExistenceTimeForUnverifiedAccountMillis : Z.
Variable intervalForRemovalOfOldUnverifiedAccountsMillis : Z.

Local Abbreviation forMemberRow :=
  (Server.forMemberRow JSON_parse nullPropertyError sqliteToTimestamp
     numberToString maxExistenceTimeForUnverifiedAccountMillis).
Local Abbreviation removeOldUnverifiedMembers :=
  (Server.removeOldUnverifiedMembers JSON_parse nullPropertyError
     sqliteToTimestamp numberToString
     maxExistenceTimeForUnverifiedAccountMillis).
Local Abbreviation startPeriodicDeleteUnverifiedMembers :=
  (Server.startPeriodicDeleteUnverifiedMembers JSON_parse nullPropertyError
     sqliteToTimestamp numberToString
     maxExistenceTimeForUnverifiedAccountMillis
     intervalForRemovalOfOldUnverifiedAccountsMillis).
Local Abbreviation due :=
  (Server.due JSON_parse nullPropertyError sqliteToTimestamp
     maxExistenceTimeForUnverifiedAccountMillis).
Local Abbreviation removalCalls :=
  (Server.removalCalls numberToString
     maxExistenceTimeForUnverifiedAccountMillis).
Local Abbreviation sweepCalls :=
  (Server.sweepCalls JSON_parse nullPropertyError sqliteToTimestamp
     numberToString maxExistenceTimeForUnverifiedAccountMillis).
Local Abbreviation errorMessage := Server.errorMessage.

(** The body of the loop, for one row: nothing if the row is passed over,
    the exception if the tests throw, and otherwise the three removal
    calls up to the first that throws. *)
Lemma forMemberRow_exec (now : Z) (memberRow : Server.MemberRow)
    (w : Server.World) (n : nat) :
  Server.exec (forMemberRow now "unverified" memberRow) w n
  = match due now memberRow with
    | Server.Threw e => ([], Server.Threw e)
    | Server.Returned false => ([], Server.Returned tt)
    | Server.Returned true =>
        match Server.attempt (removalCalls memberRow) w n with
        | (t, Some e) => (t, Server.Threw e)
        | (t, None) => (t, Server.Returned tt)
        end
    end.
Proof.
  unfold Server.forMemberRow, Server.due.
  destruct (JSON_parse (Server.verification memberRow)) as [value | e];
    [| reflexivity].
  cbn [Server.lift Server.bind].
  destruct (Server.verified nullPropertyError value) as [isVerified | e];
    [| reflexivity].
  cbn [Server.lift Server.bind].
  destruct (Server.truthy isVerified); [reflexivity|].
  destruct (sqliteToTimestamp (Server.joined memberRow)) as [ts | e];
    [| reflexivity].
  cbn [Server.lift Server.bind].
  destruct (now - ts >? maxExistenceTimeForUnverifiedAccountMillis)%Z;
    [| reflexivity].
  cbn [Server.removalCalls Server.attempt].
  rewrite !server_exec_call_then, server_exec_logEvents.
  destruct (Server.failure w n _) as [e1 |]; [reflexivity|].
  destruct (Server.failure w (S n) _) as [e2 |]; [reflexivity|].
  destruct (Server.failure w (S (S n)) _) as [e3 |]; reflexivity.
Qed.

Local Abbreviation sweepBody :=
  (fun w : Server.World =>
     Server.forOf (Server.members w)
       (forMemberRow (Server.clock w) "unverified")).

(** The events of [attempt] are calls of the list, in a quiet world all of
    them. *)
Lemma attempt_events (calls : list Server.Call) (w : Server.World)
    (n : nat) (c : Server.Call) (b : bool) :
  In (c, b) (fst (Server.attempt calls w n)) -> In c calls.
Proof.
  revert n. induction calls as [| c0 rest IH]; intros n; cbn.
  - intros [].
  - destruct (Server.failure w n c0) as [e |].
    + cbn. intros [H | []]. left. congruence.
    + destruct (Server.attempt rest w (S n)) as [t r] eqn:E. cbn.
      intros [H | H]; [left; congruence |].
      right. apply (IH (S n)). rewrite E. exact H.
Qed.

Lemma attempt_quiet (calls : list Server.Call) (w : Server.World)
    (n : nat) :
  Server.quiet w ->
  Server.attempt calls w n = (map (fun c => (c, true)) calls, None).
Proof.
  intros Hq. revert n. induction calls as [| c rest IH]; intros n; cbn.
  - reflexivity.
  - rewrite Hq, IH. reflexivity.
Qed.

(** One run of [removeOldUnverifiedMembers], call by call: the three
    opening calls, the loop if all three returned, and the report to
    [errLog.txt] if anything threw. *)
Lemma removeOldUnverifiedMembers_exec (w : Server.World) :
  Server.exec removeOldUnverifiedMembers w 0%nat
  = let report (t : Server.Trace) (e : Server.Error) :=
      match Server.failure w (length t)
              (Server.logEvents (errorMessage e) "errLog.txt" true) with
      | Some e' =>
          (t ++ [(Server.logEvents (errorMessage e) "errLog.txt" true,
                  false)],
           Server.Threw e')
      | None =>
          (t ++ [(Server.logEvents (errorMessage e) "errLog.txt" true,
                  true)],
           Server.Returned tt)
      end in
    let c0 :=
      Server.console_log "Checking for old unverified accounts." in
    let c2 := Server.db_all Server.notNullVerificationMembersQuery in
    match Server.failure w 0%nat c0 with
    | Some e => report [(c0, false)] e
    | None =>
        match Server.failure w 1%nat Server.Date_now with
        | Some e => report [(c0, true); (Server.Date_now, false)] e
        | None =>
            match Server.failure w 2%nat c2 with
            | Some e =>
                report [(c0, true); (Server.Date_now, true); (c2, false)] e
            | None =>
                match Server.exec (sweepBody w) w 3%nat with
                | (t, Server.Returned _) =>
                    ((c0, true) :: (Server.Date_now, true) :: (c2, true)
                     :: t, Server.Returned tt)
                | (t, Server.Threw e) =>
                    report ((c0, true) :: (Server.Date_now, true)
                            :: (c2, true) :: t) e
                end
            end
        end
    end.
Proof.
  unfold Server.removeOldUnverifiedMembers.
  rewrite server_exec_try_catch, server_exec_call_then. cbv zeta.
  destruct (Server.failure w 0%nat _) as [e |].
  { cbn [length Nat.add]. cbv beta. rewrite server_exec_logEvents.
    destruct (Server.failure w 1%nat _); reflexivity. }
  rewrite server_exec_call_bind. unfold Server.answer at 1.
  destruct (Server.failure w 1%nat Server.Date_now) as [e |].
  { cbn [length Nat.add]. cbv beta. rewrite server_exec_logEvents.
    destruct (Server.failure w 2%nat _); reflexivity. }
  rewrite server_exec_call_bind. unfold Server.answer at 1.
  destruct (Server.failure w 2%nat _) as [e |].
  { cbn [length Nat.add]. cbv beta. rewrite server_exec_logEvents.
    destruct (Server.failure w 3%nat _); reflexivity. }
  destruct (Server.exec _ w 3%nat) as [t [[] | e]].
  - reflexivity.
  - cbn [length Nat.add]. cbv beta. rewrite server_exec_logEvents.
    destruct (Server.failure w _ _); reflexivity.
Qed.

(** ** The loop over the rows *)

Local Abbreviation loop :=
  (fun (now : Z) (rows : list Server.MemberRow) =>
     Server.forOf rows (forMemberRow now "unverified")).

(** Every call of the loop is one of the three removal calls of a row that
    is due. *)
Lemma loop_events (now : Z) (rows : list Server.MemberRow)
    (w : Server.World) (n : nat) (c : Server.Call) (b : bool) :
  In (c, b) (fst (Server.exec (loop now rows) w n)) ->
  exists memberRow,
    In memberRow rows /\ due now memberRow = Server.Returned true
    /\ In c (removalCalls memberRow).
Proof.
  revert n. induction rows as [| row rest IH]; intros n; cbn [Server.forOf].
  - intros [].
  - rewrite server_exec_bind, forMemberRow_exec.
    destruct (due now row) as [[|] | e] eqn:Hdue.
    + destruct (Server.attempt (removalCalls row) w n) as [t [e |]] eqn:E.
      * cbn [fst]. intros H.
        refine (ex_intro _ row (conj (or_introl eq_refl) (conj Hdue _))).
        apply (attempt_events _ w n c b). rewrite E. exact H.
      * destruct (Server.exec (loop now rest) w (n + length t))
          as [t2 r] eqn:E2.
        cbn [fst]. intros H. apply in_app_or in H. destruct H as [H | H].
        -- refine (ex_intro _ row (conj (or_introl eq_refl) (conj Hdue _))).
           apply (attempt_events _ w n c b). rewrite E. exact H.
        -- destruct (IH (n + length t)%nat) as (r0 & Hin & Hd & Hc).
           { rewrite E2. exact H. }
           exact (ex_intro _ r0 (conj (or_intror Hin) (conj Hd Hc))).
    + destruct (Server.exec (loop now rest) w (n + length (@nil (Server.Call * bool))))
        as [t2 r] eqn:E2.
      cbn [fst app]. intros H.
      destruct (IH (n + length (@nil (Server.Call * bool)))%nat)
        as (r0 & Hin & Hd & Hc).
      { rewrite E2. exact H. }
      exact (ex_intro _ r0 (conj (or_intror Hin) (conj Hd Hc))).
    + cbn [fst]. intros [].
Qed.

(** What it takes for a row to be due, test by test. *)
Lemma due_true (now : Z) (memberRow : Server.MemberRow) :
  due now memberRow = Server.Returned true ->
  exists (value : Server.JSON) (isVerified : option Server.JSON)
         (joinedTimestamp : Z),
    JSON_parse (Server.verification memberRow) = Server.Returned value
    /\ Server.verified nullPropertyError value = Server.Returned isVerified
    /\ Server.truthy isVerified = false
    /\ sqliteToTimestamp (Server.joined memberRow)
       = Server.Returned joinedTimestamp
    /\ (now - joinedTimestamp
        > maxExistenceTimeForUnverifiedAccountMillis)%Z.
Proof.
  unfold Server.due.
  destruct (JSON_parse (Server.verification memberRow))
    as [value | e] eqn:Hparse; [| discriminate].
  destruct (Server.verified nullPropertyError value)
    as [isVerified | e] eqn:Hverified; [| discriminate].
  destruct (Server.truthy isVerified) eqn:Ht; [discriminate|].
  destruct (sqliteToTimestamp (Server.joined memberRow))
    as [ts | e] eqn:Hts; [| discriminate].
  intros H. injection H as H. apply Z.gtb_lt in H.
  exists value, isVerified, ts.
  repeat (split; [first [reflexivity | assumption] |]). lia.
Qed.

(** In a quiet world the loop over rows that are all decided makes the
    removal calls of the rows that are due, and returns. *)
Lemma loop_quiet (now : Z) (rows : list Server.MemberRow)
    (w : Server.World) (n : nat) :
  Server.quiet w ->
  (forall memberRow, In memberRow rows ->
     exists b, due now memberRow = Server.Returned b) ->
  Server.exec (loop now rows) w n
  = (map (fun c => (c, true)) (sweepCalls now rows), Server.Returned tt).
Proof.
  intros Hq. revert n.
  induction rows as [| row rest IH]; intros n Hrows; cbn [Server.forOf].
  - reflexivity.
  - rewrite server_exec_bind, forMemberRow_exec.
    destruct (Hrows row (or_introl eq_refl)) as [b Hb].
    unfold Server.sweepCalls. cbn [flat_map]. rewrite Hb.
    assert (Hrest : forall memberRow, In memberRow rest ->
              exists b, due now memberRow = Server.Returned b)
      by (intros r0 Hr0; apply Hrows; right; exact Hr0).
    destruct b.
    + rewrite attempt_quiet by exact Hq. rewrite (IH _ Hrest).
      rewrite map_app. reflexivity.
    + rewrite (IH _ Hrest). reflexivity.
Qed.

(** In a quiet world the loop stops at the first row whose tests throw:
    the rows before it are handled, the rows after it are not looked at. *)
Lemma loop_stops (now : Z) (before after : list Server.MemberRow)
    (bad : Server.MemberRow) (e : Server.Error)
    (w : Server.World) (n : nat) :
  Server.quiet w ->
  (forall memberRow, In memberRow before ->
     exists b, due now memberRow = Server.Returned b) ->
  due now bad = Server.Threw e ->
  Server.exec (loop now (before ++ bad :: after)) w n
  = (map (fun c => (c, true)) (sweepCalls now before), Server.Threw e).
Proof.
  intros Hq Hbefore Hbad. revert n Hbefore.
  induction before as [| row rest IH]; intros n Hbefore;
    cbn [app Server.forOf].
  - rewrite server_exec_bind, forMemberRow_exec, Hbad. reflexivity.
  - rewrite server_exec_bind, forMemberRow_exec.
    destruct (Hbefore row (or_introl eq_refl)) as [b Hb].
    unfold Server.sweepCalls. cbn [flat_map]. rewrite Hb.
    assert (Hrest : forall memberRow, In memberRow rest ->
              exists b, due now memberRow = Server.Returned b)
      by (intros r0 Hr0; apply Hbefore; right; exact Hr0).
    destruct b.
    + rewrite attempt_quiet by exact Hq. rewrite (IH _ Hrest).
      rewrite map_app. reflexivity.
    + rewrite (IH _ Hrest). reflexivity.
Qed.

(** ** The sweep *)

(** Every call of a sweep is an opening call, a removal call of a row of
    the query that is due, or the report of an exception. *)
Lemma sweep_events (w : Server.World) (c : Server.Call) (b : bool) :
  In (c, b) (Server.trace removeOldUnverifiedMembers w) ->
  In c Server.openingCalls
  \/ (exists memberRow,
        In memberRow (Server.members w)
        /\ due (Server.clock w) memberRow = Server.Returned true
        /\ In c (removalCalls memberRow))
  \/ (exists e, c = Server.logEvents (errorMessage e) "errLog.txt" true).
Proof.
  unfold Server.trace. rewrite removeOldUnverifiedMembers_exec. cbv zeta.
  assert (Hreport : forall (t : Server.Trace) (e : Server.Error),
    (In (c, b) t ->
     In c Server.openingCalls
     \/ (exists memberRow,
           In memberRow (Server.members w)
           /\ due (Server.clock w) memberRow = Server.Returned true
           /\ In c (removalCalls memberRow))
     \/ (exists e, c = Server.logEvents (errorMessage e) "errLog.txt" true)) ->
    In (c, b)
      (fst match Server.failure w (length t)
                   (Server.logEvents (errorMessage e) "errLog.txt" true) with
           | Some e' =>
               (t ++ [(Server.logEvents (errorMessage e) "errLog.txt" true,
                       false)], Server.Threw e')
           | None =>
               (t ++ [(Server.logEvents (errorMessage e) "errLog.txt" true,
                       true)], Server.Returned tt)
           end) ->
    In c Server.openingCalls
    \/ (exists memberRow,
          In memberRow (Server.members w)
          /\ due (Server.clock w) memberRow = Server.Returned true
          /\ In c (removalCalls memberRow))
    \/ (exists e, c = Server.logEvents (errorMessage e) "errLog.txt" true)).
  { intros t e Ht H.
    destruct (Server.failure w (length t) _); cbn [fst] in H;
      apply in_app_or in H; destruct H as [H | [H | []]];
      try (apply Ht; exact H);
      right; right; exists e; congruence. }
  unfold Server.openingCalls.
  destruct (Server.failure w 0%nat _).
  { apply Hreport. intros [H | []]. left. left. congruence. }
  destruct (Server.failure w 1%nat _).
  { apply Hreport. intros [H | [H | []]]; left;
      [left | right; left]; congruence. }
  destruct (Server.failure w 2%nat _).
  { apply Hreport. intros [H | [H | [H | []]]]; left;
      [left | right; left | right; right; left]; congruence. }
  assert (Hloop : forall t r,
    Server.exec (Server.forOf (Server.members w)
                   (forMemberRow (Server.clock w) "unverified")) w 3%nat
    = (t, r) ->
    In (c, b) ((Server.console_log "Checking for old unverified accounts.",
                true)
               :: (Server.Date_now, true)
               :: (Server.db_all Server.notNullVerificationMembersQuery, true)
               :: t) ->
    In c [Server.console_log "Checking for old unverified accounts.";
          Server.Date_now;
          Server.db_all Server.notNullVerificationMembersQuery]
    \/ (exists memberRow,
          In memberRow (Server.members w)
          /\ due (Server.clock w) memberRow = Server.Returned true
          /\ In c (removalCalls memberRow))
    \/ (exists e, c = Server.logEvents (errorMessage e) "errLog.txt" true)).
  { intros t r E [H | [H | [H | H]]];
      [left; left | left; right; left | left; right; right; left | ];
      try congruence.
    right. left. apply (loop_events _ _ w 3%nat c b). rewrite E. exact H. }
  destruct (Server.exec _ w 3%nat) as [t [[] | e]] eqn:E.
  - cbn [fst]. apply (Hloop t _ eq_refl).
  - apply Hreport. apply (Hloop t _ eq_refl).
Qed.

(** X8.  A sweep deletes only members that are due: whatever throws and
    whenever, each call of [deleteUser] has the reason ["unverified"] and
    the id of a row of the query whose [verification] parses to a value
    with a falsy [verified] and whose [joined] lies more than the maximum
    existence time before the clock reading.  A member that is verified,
    or that joined no longer ago than the maximum, is never deleted. *)
Theorem only_due_members_are_deleted (w : Server.World) (id : Z)
    (reason : Server.string) (b : bool)
    (Hcall : In (Server.deleteUser id reason, b)
               (Server.trace removeOldUnverifiedMembers w)) :
  reason = "unverified"
  /\ exists (memberRow : Server.MemberRow) (value : Server.JSON)
            (isVerified : option Server.JSON) (joinedTimestamp : Z),
       In memberRow (Server.members w)
       /\ Server.user_id memberRow = id
       /\ JSON_parse (Server.verification memberRow) = Server.Returned value
       /\ Server.verified nullPropertyError value
          = Server.Returned isVerified
       /\ Server.truthy isVerified = false
       /\ sqliteToTimestamp (Server.joined memberRow)
          = Server.Returned joinedTimestamp
       /\ (Server.clock w - joinedTimestamp
           > maxExistenceTimeForUnverifiedAccountMillis)%Z.
Proof.
  destruct (sweep_events w _ _ Hcall) as [H | [H | [e H]]].
  - destruct H as [H | [H | [H | []]]]; discriminate H.
  - destruct H as (row & Hin & Hdue & Hc).
    destruct Hc as [Hc | [Hc | [Hc | []]]]; try discriminate Hc.
    injection Hc as Hid Hreason.
    destruct (due_true _ _ Hdue) as (value & isVerified & ts & H1 & H2 & H3
                                     & H4 & H5).
    split; [symmetry; exact Hreason |].
    exists row, value, isVerified, ts.
    repeat (split; [assumption |]). exact H5.
  - discriminate H.
Qed.

(** X9.  When no call throws and the tests of every row return, a sweep
    makes exactly these calls, all returning: the three opening calls and
    then, row by row in the order of the query, for each row that is due
    [deleteUser], [closeAllSocketsOfMember] with code 1008, and the report
    to [deletedAccounts.txt]; and the sweep returns. *)
Theorem quiet_sweep_calls (w : Server.World)
    (Hquiet : Server.quiet w)
    (Hrows : forall memberRow, In memberRow (Server.members w) ->
       exists b, due (Server.clock w) memberRow = Server.Returned b) :
  Server.trace removeOldUnverifiedMembers w
  = map (fun c => (c, true))
      (Server.openingCalls
       ++ sweepCalls (Server.clock w) (Server.members w))
  /\ Server.outcome removeOldUnverifiedMembers w = Server.Returned tt.
Proof.
  unfold Server.trace, Server.outcome.
  rewrite removeOldUnverifiedMembers_exec. cbv zeta.
  rewrite !Hquiet. rewrite (loop_quiet _ _ w 3%nat Hquiet Hrows).
  split; reflexivity.
Qed.

(** X10.  One row whose tests throw (a [verification] that is not JSON,
    say) ends the sweep: in a world where no call throws, the rows before
    it are handled as usual, the exception is reported to [errLog.txt],
    the sweep returns, and no row after it is deleted in this sweep,
    however long it has been unverified. *)
Theorem sweep_stops_at_throwing_row (w : Server.World)
    (before after : list Server.MemberRow) (bad : Server.MemberRow)
    (e : Server.Error)
    (Hquiet : Server.quiet w)
    (Hmembers : Server.members w = before ++ bad :: after)
    (Hbefore : forall memberRow, In memberRow before ->
       exists b, due (Server.clock w) memberRow = Server.Returned b)
    (Hbad : due (Server.clock w) bad = Server.Threw e) :
  Server.trace removeOldUnverifiedMembers w
  = map (fun c => (c, true))
      (Server.openingCalls
       ++ sweepCalls (Server.clock w) before
       ++ [Server.logEvents (errorMessage e) "errLog.txt" true])
  /\ Server.outcome removeOldUnverifiedMembers w = Server.Returned tt.
Proof.
  unfold Server.trace, Server.outcome.
  rewrite removeOldUnverifiedMembers_exec. cbv zeta.
  rewrite !Hquiet. rewrite Hmembers.
  rewrite (loop_stops _ _ _ _ _ w 3%nat Hquiet Hbefore Hbad).
  rewrite Hquiet. cbn [fst snd Server.openingCalls app map].
  rewrite map_app. split; reflexivity.
Qed.

(** A sweep returns, unless its report to [errLog.txt] throws: then that
    report is its last call, and the sweep throws what the report threw. *)
Lemma sweep_outcome (w : Server.World) :
  Server.outcome removeOldUnverifiedMembers w = Server.Returned tt
  \/ exists (e e' : Server.Error) (t : Server.Trace),
       Server.trace removeOldUnverifiedMembers w
       = t ++ [(Server.logEvents (errorMessage e) "errLog.txt" true, false)]
       /\ Server.failure w (length t)
            (Server.logEvents (errorMessage e) "errLog.txt" true) = Some e'
       /\ Server.outcome removeOldUnverifiedMembers w = Server.Threw e'.
Proof.
  unfold Server.trace, Server.outcome.
  rewrite removeOldUnverifiedMembers_exec. cbv zeta.
  assert (Hreport : forall (t : Server.Trace) (e : Server.Error),
    let run :=
      match Server.failure w (length t)
              (Server.logEvents (errorMessage e) "errLog.txt" true) with
      | Some e' =>
          (t ++ [(Server.logEvents (errorMessage e) "errLog.txt" true,
                  false)], Server.Threw e')
      | None =>
          (t ++ [(Server.logEvents (errorMessage e) "errLog.txt" true,
                  true)], Server.Returned tt)
      end in
    snd run = Server.Returned tt
    \/ exists (e0 e' : Server.Error) (t0 : Server.Trace),
         fst run
         = t0 ++ [(Server.logEvents (errorMessage e0) "errLog.txt" true,
                   false)]
         /\ Server.failure w (length t0)
              (Server.logEvents (errorMessage e0) "errLog.txt" true)
            = Some e'
         /\ snd run = Server.Threw e').
  { intros t e. cbv zeta.
    destruct (Server.failure w (length t) _) as [e' |] eqn:E.
    - right. exists e, e', t. cbn [fst snd].
      split; [reflexivity | split; [exact E | reflexivity]].
    - left. reflexivity. }
  cbv zeta in Hreport.
  destruct (Server.failure w 0%nat _); [apply Hreport |].
  destruct (Server.failure w 1%nat _); [apply Hreport |].
  destruct (Server.failure w 2%nat _); [apply Hreport |].
  destruct (Server.exec _ w 3%nat) as [t [[] | e]].
  - left. reflexivity.
  - apply Hreport.
Qed.

(** X11.  A sweep lets no exception out, whatever throws in it (the
    clock, the query, [JSON.parse], [deleteUser], ...), as long as the
    report to [errLog.txt] itself does not throw. *)
Theorem sweep_returns_unless_report_throws (w : Server.World)
    (Hreport : forall (n : nat) (message : Server.string),
       Server.failure w n (Server.logEvents message "errLog.txt" true)
       = None) :
  Server.outcome removeOldUnverifiedMembers w = Server.Returned tt.
Proof.
  destruct (sweep_outcome w) as [H | (e & e' & t & _ & Hfail & _)].
  - exact H.
  - rewrite Hreport in Hfail. discriminate Hfail.
Qed.

(** Traces that keep [closes_follow_deletions], put end to end. *)
Lemma closes_follow_deletions_app (previous : option (Server.Call * bool))
    (t1 t2 : Server.Trace) :
  Server.closes_follow_deletions previous t1 ->
  (forall p, Server.closes_follow_deletions p t2) ->
  Server.closes_follow_deletions previous (t1 ++ t2).
Proof.
  intros H1 H2. revert previous H1.
  induction t1 as [| event rest IH]; intros previous H1; cbn [app].
  - apply H2.
  - cbn [Server.closes_follow_deletions] in *. destruct H1 as [Hhead Hrest].
    split; [exact Hhead | apply IH; exact Hrest].
Qed.

Lemma removal_closes_follow_deletions (memberRow : Server.MemberRow)
    (w : Server.World) (n : nat) (p : option (Server.Call * bool)) :
  Server.closes_follow_deletions p
    (fst (Server.attempt (removalCalls memberRow) w n)).
Proof.
  cbn [Server.removalCalls Server.attempt].
  destruct (Server.failure w n _); [cbn; tauto |].
  destruct (Server.failure w (S n) _); [cbn; tauto |].
  destruct (Server.failure w (S (S n)) _); cbn; tauto.
Qed.

Lemma loop_closes_follow_deletions (now : Z)
    (rows : list Server.MemberRow) (w : Server.World) (n : nat)
    (p : option (Server.Call * bool)) :
  Server.closes_follow_deletions p (fst (Server.exec (loop now rows) w n)).
Proof.
  revert n p. induction rows as [| row rest IH]; intros n p;
    cbn [Server.forOf].
  - exact I.
  - rewrite server_exec_bind, forMemberRow_exec.
    destruct (due now row) as [[|] | e].
    + pose proof (removal_closes_follow_deletions row w n p) as Hrow.
      destruct (Server.attempt (removalCalls row) w n) as [t [e |]].
      * exact Hrow.
      * pose proof (fun q => IH (n + length t)%nat q) as Hrest.
        destruct (Server.exec (loop now rest) w (n + length t)) as [t2 r].
        cbn [fst] in *. apply closes_follow_deletions_app; assumption.
    + pose proof (IH (n + length (@nil (Server.Call * bool)))%nat p) as Hrest.
      destruct (Server.exec (loop now rest) w
                  (n + length (@nil (Server.Call * bool)))) as [t2 r].
      exact Hrest.
    + exact I.
Qed.

(** X12.  In every sweep, whatever throws, the sockets of a member are
    closed only right after [deleteUser] was called for that very member
    with the reason ["unverified"] and returned, with the close code 1008
    and the reason ["Logged out"]; so no sockets are closed for a member
    whose deletion threw or was not attempted. *)
Theorem sockets_closed_only_after_deletion (w : Server.World) :
  Server.closes_follow_deletions None
    (Server.trace removeOldUnverifiedMembers w).
Proof.
  unfold Server.trace. rewrite removeOldUnverifiedMembers_exec. cbv zeta.
  assert (Hreport : forall (t : Server.Trace) (e : Server.Error),
    Server.closes_follow_deletions None t ->
    Server.closes_follow_deletions None
      (fst match Server.failure w (length t)
                   (Server.logEvents (errorMessage e) "errLog.txt" true) with
           | Some e' =>
               (t ++ [(Server.logEvents (errorMessage e) "errLog.txt" true,
                       false)], Server.Threw e')
           | None =>
               (t ++ [(Server.logEvents (errorMessage e) "errLog.txt" true,
                       true)], Server.Returned tt)
           end)).
  { intros t e Ht.
    destruct (Server.failure w (length t) _); cbn [fst];
      (apply closes_follow_deletions_app; [exact Ht | intros p; cbn; tauto]). }
  destruct (Server.failure w 0%nat _); [apply Hreport; cbn; tauto |].
  destruct (Server.failure w 1%nat _); [apply Hreport; cbn; tauto |].
  destruct (Server.failure w 2%nat _); [apply Hreport; cbn; tauto |].
  pose proof (loop_closes_follow_deletions (Server.clock w)
                (Server.members w) w 3%nat
                (Some (Server.db_all Server.notNullVerificationMembersQuery,
                       true))) as Hloop.
  destruct (Server.exec _ w 3%nat) as [t [[] | e]]; cbn [fst] in Hloop.
  - cbn [fst Server.closes_follow_deletions]. tauto.
  - apply Hreport. cbn [Server.closes_follow_deletions fst]. tauto.
Qed.

(** X13.  [startPeriodicDeleteUnverifiedMembers] sweeps once and then sets
    the timer: as long as the report to [errLog.txt] does not throw,
    whatever else goes wrong in the first sweep, [setInterval] is called
    exactly once, after the last call of the sweep, with the sweep as its
    callback and the configured interval as its delay. *)
Theorem timer_set_after_first_sweep (w : Server.World)
    (Hreport : forall (n : nat) (message : Server.string),
       Server.failure w n (Server.logEvents message "errLog.txt" true)
       = None) :
  (exists b : bool,
     Server.trace startPeriodicDeleteUnverifiedMembers w
     = Server.trace removeOldUnverifiedMembers w
       ++ [(Server.setInterval Server.removeOldUnverifiedMembers_callback
              intervalForRemovalOfOldUnverifiedAccountsMillis, b)])
  /\ forall (callback : Server.Callback) (delay : Z) (b : bool),
       ~ In (Server.setInterval callback delay, b)
           (Server.trace removeOldUnverifiedMembers w).
Proof.
  split.
  - pose proof (sweep_outcome w) as Hout.
    unfold Server.trace, Server.outcome in *.
    unfold Server.startPeriodicDeleteUnverifiedMembers.
    rewrite server_exec_bind.
    destruct (Server.exec removeOldUnverifiedMembers w 0%nat)
      as [t [[] | e]] eqn:E; cbn [fst snd] in *.
    + cbn [Server.call Server.exec].
      destruct (Server.answer w _ _); cbn [fst]; eexists; reflexivity.
    + destruct Hout as [H | (e0 & e' & t0 & _ & Hfail & _)];
        [discriminate H |].
      rewrite Hreport in Hfail. discriminate Hfail.
  - intros callback delay b H.
    destruct (sweep_events w _ _ H) as [Ho | [(row & _ & _ & Hc) | [e He]]].
    + destruct Ho as [Ho | [Ho | [Ho | []]]]; discriminate Ho.
    + destruct Hc as [Hc | [Hc | [Hc | []]]]; discriminate Hc.
    + discriminate He.
Qed.

End ServerJob.

(** ** The sample server *)

Local Abbreviation sampleSweep :=
  (Server.removeOldUnverifiedMembers Server.sampleParse
     Server.sampleNullError Server.sampleTimestamp Server.sampleToString
     Server.sampleMax).
Local Abbreviation sampleDue :=
  (Server.due Server.sampleParse Server.sampleNullError
     Server.sampleTimestamp Server.sampleMax).

Lemma sample_rows_decided (memberRow : Server.MemberRow) :
  In memberRow [Server.alice; Server.bob; Server.carol] ->
  exists b, sampleDue Server.sampleClock memberRow = Server.Returned b.
Proof.
  intros [<- | [<- | [<- | []]]];
    [exists false | exists true | exists false]; reflexivity.
Qed.

Lemma quietWorld_quiet : Server.quiet Server.quietWorld.
Proof. intros n c. reflexivity. Qed.

Lemma malformedWorld_quiet : Server.quiet Server.malformedWorld.
Proof. intros n c. reflexivity. Qed.

Lemma brokenDatabaseWorld_reports (n : nat) (message : Server.string) :
  Server.failure Server.brokenDatabaseWorld n
    (Server.logEvents message "errLog.txt" true) = None.
Proof. reflexivity. Qed.

Lemma only_due_members_are_deleted_witness :
  In (Server.deleteUser 2 "unverified", true)
    (Server.trace sampleSweep Server.quietWorld)
  /\ exists (memberRow : Server.MemberRow) (value : Server.JSON)
            (isVerified : option Server.JSON) (joinedTimestamp : Z),
       In memberRow (Server.members Server.quietWorld)
       /\ Server.user_id memberRow = 2%Z
       /\ Server.sampleParse (Server.verification memberRow)
          = Server.Returned value
       /\ Server.verified Server.sampleNullError value
          = Server.Returned isVerified
       /\ Server.truthy isVerified = false
       /\ Server.sampleTimestamp (Server.joined memberRow)
          = Server.Returned joinedTimestamp
       /\ (Server.clock Server.quietWorld - joinedTimestamp
           > Server.sampleMax)%Z.
Proof.
  assert (H : In (Server.deleteUser 2 "unverified", true)
                (Server.trace sampleSweep Server.quietWorld))
    by (do 3 right; left; reflexivity).
  exact (conj H
           (proj2 (only_due_members_are_deleted Server.sampleParse
                     Server.sampleNullError Server.sampleTimestamp
                     Server.sampleToString Server.sampleMax
                     Server.quietWorld 2 "unverified" true H))).
Defined.

Lemma quiet_sweep_calls_witness :
  Server.quiet Server.quietWorld
  /\ (forall memberRow, In memberRow (Server.members Server.quietWorld) ->
        exists b, sampleDue (Server.clock Server.quietWorld) memberRow
                  = Server.Returned b)
  /\ map fst (Server.trace sampleSweep Server.quietWorld)
     = Server.openingCalls
       ++ Server.removalCalls Server.sampleToString Server.sampleMax
            Server.bob.
Proof.
  refine (conj quietWorld_quiet (conj sample_rows_decided _)).
  rewrite (proj1 (quiet_sweep_calls Server.sampleParse
                    Server.sampleNullError Server.sampleTimestamp
                    Server.sampleToString Server.sampleMax
                    Server.quietWorld quietWorld_quiet sample_rows_decided)).
  reflexivity.
Defined.

Lemma sweep_stops_at_throwing_row_witness :
  Server.quiet Server.malformedWorld
  /\ Server.members Server.malformedWorld
     = [Server.alice; Server.bob; Server.carol]
       ++ Server.dave :: [Server.erin]
  /\ sampleDue Server.sampleClock Server.dave
     = Server.Threw (Server.mkError "SyntaxError: Unexpected token")
  /\ sampleDue Server.sampleClock Server.erin = Server.Returned true
  /\ map fst (Server.trace sampleSweep Server.malformedWorld)
     = Server.openingCalls
       ++ Server.removalCalls Server.sampleToString Server.sampleMax
            Server.bob
       ++ [Server.logEvents
             (Server.errorMessage
                (Server.mkError "SyntaxError: Unexpected token"))
             "errLog.txt" true].
Proof.
  refine (conj malformedWorld_quiet
            (conj eq_refl (conj eq_refl (conj eq_refl _)))).
  rewrite (proj1 (sweep_stops_at_throwing_row Server.sampleParse
                    Server.sampleNullError Server.sampleTimestamp
                    Server.sampleToString Server.sampleMax
                    Server.malformedWorld
                    [Server.alice; Server.bob; Server.carol] [Server.erin]
                    Server.dave
                    (Server.mkError "SyntaxError: Unexpected token")
                    malformedWorld_quiet eq_refl sample_rows_decided
                    eq_refl)).
  reflexivity.
Defined.

Lemma sweep_returns_unless_report_throws_witness :
  (forall (n : nat) (message : Server.string),
     Server.failure Server.brokenDatabaseWorld n
       (Server.logEvents message "errLog.txt" true) = None)
  /\ Server.outcome sampleSweep Server.brokenDatabaseWorld
     = Server.Returned tt
  /\ In (Server.db_all Server.notNullVerificationMembersQuery, false)
       (Server.trace sampleSweep Server.brokenDatabaseWorld).
Proof.
  refine (conj brokenDatabaseWorld_reports (conj _ _)).
  - exact (sweep_returns_unless_report_throws Server.sampleParse
             Server.sampleNullError Server.sampleTimestamp
             Server.sampleToString Server.sampleMax
             Server.brokenDatabaseWorld brokenDatabaseWorld_reports).
  - do 2 right. left. reflexivity.
Defined.

Lemma timer_set_after_first_sweep_witness :
  (forall (n : nat) (message : Server.string),
     Server.failure Server.brokenDatabaseWorld n
       (Server.logEvents message "errLog.txt" true) = None)
  /\ exists b : bool,
       Server.trace
         (Server.startPeriodicDeleteUnverifiedMembers Server.sampleParse
            Server.sampleNullError Server.sampleTimestamp
            Server.sampleToString Server.sampleMax Server.sampleInterval)
         Server.brokenDatabaseWorld
       = Server.trace sampleSweep Server.brokenDatabaseWorld
         ++ [(Server.setInterval Server.removeOldUnverifiedMembers_callback
                Server.sampleInterval, b)].
Proof.
  refine (conj brokenDatabaseWorld_reports _).
  exact (proj1 (timer_set_after_first_sweep Server.sampleParse
                  Server.sampleNullError Server.sampleTimestamp
                  Server.sampleToString Server.sampleMax
                  Server.sampleInterval Server.brokenDatabaseWorld
                  brokenDatabaseWorld_reports)).
Defined.
